(** * WiMa: wardriving captures to GeoJSON and to a filterable map

    A shallow embedding of the field normalisers and ingest loops of
    - [make_map.py] (Python helpers [coerce_float], [infer_type],
      [extract_signal_dbm], the check of the loaded document in [main],
      and the page script of [HTML_TEMPLATE]: [coerceFloat],
      [extractSignal], [inferType], [colorBySignal], [signalBucket],
      [markerStyle], [passesFilters], [refresh]),
    - [scripts/csv_to_geojson.py] ([to_float] and the row loop),
    - [scripts/parse_netxml.py] ([parse_netxml]),
    together with the properties stated about them.

    Conventions of the embedding.
    - A Python [str] / JavaScript string is a [string] holding the UTF-8
      bytes of the text.  White space, letter case and digits are those of
      the ASCII range; bytes above 127 are carried unchanged (the Unicode
      tables of the two runtimes are outside the embedding).
    - A Python [float] / JavaScript number is a binary64 value, written as a
      [spec_float] with [prec = 53] and [emax = 1024]; decimal literals are
      converted with round-to-nearest-even.
    - A Python [dict] and a JavaScript object are association lists in
      insertion order with distinct keys; lookup takes the first binding.
    - A Python exception is the [Raise] branch of [res]. *)

From Stdlib Require Import ZArith String Ascii List Bool Lia.
From Stdlib Require Import Floats.SpecFloat.
From stdpp Require Import gmap strings list pretty.

Set Warnings "-register-all".

Local Open Scope Z_scope.
Local Open Scope string_scope.

(** ** Characters and strings *)

Definition code (c : ascii) : N := N_of_ascii c.

Definition in_range (lo hi : N) (c : ascii) : bool :=
  ((lo <=? code c) && (code c <=? hi))%N.

Definition is_digit (c : ascii) : bool := in_range 48 57 c.
Definition is_upper (c : ascii) : bool := in_range 65 90 c.
Definition is_lower (c : ascii) : bool := in_range 97 122 c.

(** [str.isspace] on the ASCII range: TAB..CR, FS..US and the blank. *)
Definition py_isspace (c : ascii) : bool :=
  in_range 9 13 c || in_range 28 31 c || (code c =? 32)%N.

(** White space of C's [isspace] in the C locale, which is what [float]
    skips around a number: TAB..CR and the blank.  The separators FS..US,
    which [str.strip] removes, are not among it. *)
Definition float_isspace (c : ascii) : bool :=
  in_range 9 13 c || (code c =? 32)%N.

(** A character of the ASCII range. *)
Definition is_ascii (c : ascii) : bool := (code c <? 128)%N.

(** White space of [String.prototype.trim] on the ASCII range. *)
Definition js_isspace (c : ascii) : bool :=
  in_range 9 13 c || (code c =? 32)%N.

Definition lower_char (c : ascii) : ascii :=
  if is_upper c then ascii_of_N (code c + 32) else c.

Definition upper_char (c : ascii) : ascii :=
  if is_lower c then ascii_of_N (code c - 32) else c.

Fixpoint smap (f : ascii -> ascii) (s : string) : string :=
  match s with
  | EmptyString => EmptyString
  | String c r => String (f c) (smap f r)
  end.

Definition lower : string -> string := smap lower_char.
Definition upper : string -> string := smap upper_char.

Fixpoint lstrip (sp : ascii -> bool) (s : string) : string :=
  match s with
  | EmptyString => EmptyString
  | String c r => if sp c then lstrip sp r else s
  end.

Fixpoint rstrip (sp : ascii -> bool) (s : string) : string :=
  match s with
  | EmptyString => EmptyString
  | String c r =>
      match rstrip sp r with
      | EmptyString => if sp c then EmptyString else String c EmptyString
      | r' => String c r'
      end
  end.

Definition strip (sp : ascii -> bool) (s : string) : string :=
  rstrip sp (lstrip sp s).

(** [starts_with p s] returns what follows [p] when [s] begins with [p]. *)
Fixpoint starts_with (p s : string) : option string :=
  match p, s with
  | EmptyString, _ => Some s
  | String a p', String b s' =>
      if Ascii.eqb a b then starts_with p' s' else None
  | String _ _, EmptyString => None
  end.

Definition is_prefix (p s : string) : bool :=
  match starts_with p s with Some _ => true | None => false end.

(** [sub in s] for Python strings, [s.includes(sub)] in the page script. *)
Fixpoint contains (sub s : string) : bool :=
  is_prefix sub s ||
  match s with
  | EmptyString => false
  | String _ r => contains sub r
  end.

(** [s.replace(old, new)] for a non-empty [old]: occurrences are replaced
    from the left and do not overlap; [skip] counts the characters of the
    occurrence just replaced that are still to be passed over. *)
Fixpoint replace_from (old new : string) (skip : nat) (s : string) : string :=
  match s with
  | EmptyString => EmptyString
  | String c r =>
      match skip with
      | S k => replace_from old new k r
      | O =>
          if is_prefix old s
          then new ++ replace_from old new (Nat.pred (String.length old)) r
          else String c (replace_from old new O r)
      end
  end.

Definition replace (old new s : string) : string := replace_from old new O s.

(** JavaScript [s.replace(old, new)] with a string pattern: only the first
    occurrence is replaced. *)
Fixpoint replace_first (old new s : string) : string :=
  match starts_with old s with
  | Some rest => new ++ rest
  | None =>
      match s with
      | EmptyString => EmptyString
      | String c r => String c (replace_first old new r)
      end
  end.

(** Every character of [s] satisfies [p]. *)
Fixpoint sall (p : ascii -> bool) (s : string) : bool :=
  match s with
  | EmptyString => true
  | String c r => p c && sall p r
  end.

Definition str_in (s : string) (l : list string) : bool :=
  existsb (String.eqb s) l.

(** U+2212 MINUS SIGN, as its three UTF-8 bytes. *)
Definition uminus : string :=
  String (ascii_of_N 226) (String (ascii_of_N 136) (String (ascii_of_N 146) EmptyString)).

Definition newline : string := String (ascii_of_N 10) EmptyString.

(** ** Binary64 numbers *)

Definition prec64 : Z := 53.
Definition emax64 : Z := 1024.

(** Nearest binary64 to [num / den]. *)
Definition b64_of_ratio (neg : bool) (num den : positive) : spec_float :=
  let '(q, e, l) := SFdiv_core_binary prec64 emax64 (Zpos num) 0 (Zpos den) 0 in
  binary_round_aux prec64 emax64 neg q e l.

(** Nearest binary64 to [m * 10 ^ e10], for [0 <= m]; beyond the largest
    finite value the result is an infinity. *)
Definition b64_of_decimal (neg : bool) (m e10 : Z) : spec_float :=
  match m with
  | Zpos p =>
      match e10 with
      | Zneg k => b64_of_ratio neg p (Pos.pow 10 k)
      | _ => binary_round prec64 emax64 neg (p * Z.to_pos (10 ^ e10))%positive 0
      end
  | _ => S754_zero neg
  end.

(** Nearest binary64 to an integer. *)
Definition b64_of_Z (z : Z) : spec_float :=
  binary_normalize prec64 emax64 z 0 false.

(** [math.isfinite] / [Number.isFinite]. *)
Definition is_finite (x : spec_float) : bool :=
  match x with
  | S754_zero _ | S754_finite _ _ _ => true
  | S754_infinity _ | S754_nan => false
  end.

Definition b64_lt (x y : spec_float) : bool := SFltb x y.
Definition b64_le (x y : spec_float) : bool := SFleb x y.
Definition b64_abs (x : spec_float) : spec_float := SFabs x.

(** ** Python's [float(str)] *)

(** Underscores are legal between two digits only (PEP 515); the function
    returns the text without them, or [None] for a misplaced one.  [prev] is
    the character before the current one. *)
Definition underscore_before (prev : option ascii) : bool :=
  match prev with
  | Some p => Ascii.eqb p "_"
  | None => false
  end.

Definition digit_before (prev : option ascii) : bool :=
  match prev with
  | Some p => is_digit p
  | None => false
  end.

Fixpoint drop_underscores (prev : option ascii) (s : string) : option string :=
  match s with
  | EmptyString => if underscore_before prev then None else Some EmptyString
  | String c r =>
      if Ascii.eqb c "_" then
        if digit_before prev then drop_underscores (Some c) r else None
      else if underscore_before prev && negb (is_digit c) then None
      else String c <$> drop_underscores (Some c) r
  end.

(** Longest prefix of decimal digits, and the rest. *)
Fixpoint span_digits (s : string) : string * string :=
  match s with
  | String c r =>
      if is_digit c
      then let '(d, t) := span_digits r in (String c d, t)
      else (EmptyString, s)
  | EmptyString => (EmptyString, EmptyString)
  end.

Fixpoint digits_value (acc : Z) (s : string) : Z :=
  match s with
  | EmptyString => acc
  | String c r => digits_value (10 * acc + (Z.of_N (code c) - 48)) r
  end.

Definition split_sign (s : string) : bool * string :=
  match s with
  | String c r =>
      if Ascii.eqb c "-" then (true, r)
      else if Ascii.eqb c "+" then (false, r)
      else (false, s)
  | EmptyString => (false, s)
  end.

(** The exponent part: nothing, or [e]/[E], an optional sign and at least
    one digit, up to the end of the text. *)
Definition parse_exponent (s : string) : option Z :=
  match s with
  | EmptyString => Some 0
  | String c r =>
      if Ascii.eqb (lower_char c) "e" then
        let '(eneg, r1) := split_sign r in
        let '(ed, r2) := span_digits r1 in
        match ed, r2 with
        | String _ _, EmptyString =>
            Some (if eneg then - digits_value 0 ed else digits_value 0 ed)
        | _, _ => None
        end
      else None
  end.

(** An unsigned decimal literal: mantissa digits and power of ten. *)
Definition parse_decimal (s : string) : option (Z * Z) :=
  let '(ip, r1) := span_digits s in
  let '(fp, r2) :=
    match r1 with
    | String c r => if Ascii.eqb c "." then span_digits r else (EmptyString, r1)
    | EmptyString => (EmptyString, r1)
    end in
  match ip ++ fp with
  | EmptyString => None
  | ds =>
      match parse_exponent r2 with
      | Some e => Some (digits_value 0 ds, e - Z.of_nat (String.length fp))
      | None => None
      end
  end.

(** A signed literal: [inf], [infinity], [nan] in any letter case, or a
    decimal number. *)
Definition parse_float_literal (s : string) : option spec_float :=
  let '(neg, r) := split_sign s in
  let l := lower r in
  if str_in l ["inf"; "infinity"] then Some (S754_infinity neg)
  else if String.eqb l "nan" then Some S754_nan
  else
    match parse_decimal r with
    | Some (m, e) => Some (b64_of_decimal neg m e)
    | None => None
    end.

(** [float(s)] for a text of the ASCII range; [None] stands for
    [ValueError].  Around the number [float] skips the white space of
    [float_isspace] only.  (On a text with code points above 127 [float]
    also reads the decimal digits and the spaces of Unicode, which are
    outside the embedding: the comparison of the two coercions below is
    stated for texts of the ASCII range.) *)
Definition py_float (s : string) : option spec_float :=
  match drop_underscores None s with
  | Some t => parse_float_literal (strip float_isspace t)
  | None => None
  end.

(** ** Python values, exceptions *)

Inductive exn : Type :=
  | AttributeError
  | OverflowError.

Inductive res (A : Type) : Type :=
  | Ok (a : A)
  | Raise (e : exn).

Arguments Ok {A} a.
Arguments Raise {A} e.

#[global] Instance res_bind : MBind res := fun A B k r =>
  match r with
  | Ok a => k a
  | Raise e => Raise e
  end.

(** What [json.load] produces. *)
Inductive pyval : Type :=
  | PNone
  | PBool (b : bool)
  | PInt (z : Z)
  | PFloat (f : spec_float)
  | PStr (s : string)
  | PList (l : list pyval)
  | PDict (d : list (string * pyval)).

Abbreviation pydict := (list (string * pyval)).

Fixpoint dict_get {V : Type} (k : string) (d : list (string * V)) : option V :=
  match d with
  | [] => None
  | (k', v) :: r => if String.eqb k k' then Some v else dict_get k r
  end.

Definition dict_has {V : Type} (k : string) (d : list (string * V)) : bool :=
  match dict_get k d with Some _ => true | None => false end.

(** [float(n)] for an [int]: nearest binary64, [OverflowError] when the
    integer is beyond the finite range. *)
Definition float_of_int (z : Z) : res spec_float :=
  let f := b64_of_Z z in
  if is_finite f then Ok f else Raise OverflowError.

Definition py_truthy (v : pyval) : bool :=
  match v with
  | PNone => false
  | PBool b => b
  | PInt z => negb (Z.eqb z 0)
  | PFloat f => negb (SFeqb f (S754_zero false))
  | PStr s => negb (String.eqb s "")
  | PList l => match l with [] => false | _ => true end
  | PDict d => match d with [] => false | _ => true end
  end.

Fixpoint join (sep : string) (l : list string) : string :=
  match l with
  | [] => ""
  | [s] => s
  | s :: r => s ++ sep ++ join sep r
  end.

(** ** [make_map.py]: constants *)

Definition SIGNAL_KEYS : list string :=
  [ "Signal dBm";
    "signal_dbm";
    "kismet.device.base.signal.kismet.common.signal.last_signal";
    "kismet.device.base.signal/kismet.common.signal.last_signal";
    "kismet.common.signal.last_signal";
    "last_signal";
    "signal" ].

Definition TYPE_KEYS : list string :=
  [ "type"; "Type"; "device_type"; "kismet.device.base.type";
    "dot11.device.type"; "kismet.device.base.typename"; "typename" ].

(** [re.sub(r"\s*dBm?$", "", s, flags=re.IGNORECASE)].  A match starts at
    the leftmost position from which the rest of the text is white space
    followed by [db] or [dbm]; [$] also holds before a final line feed,
    which is then kept. *)
Fixpoint re_sub_unit (s : string) : string :=
  let l := lower (lstrip py_isspace s) in
  if str_in l ["db"; "dbm"] then ""
  else if str_in l ["db" ++ newline; "dbm" ++ newline] then newline
  else
    match s with
    | EmptyString => EmptyString
    | String c r => String c (re_sub_unit r)
    end.

Section Runtime.

(** [repr] of a float, a list or a dict is the Python runtime's. *)
Variable py_repr : pyval -> string.

(** [str(val)] *)
Definition py_str (val : pyval) : string :=
  match val with
  | PStr s => s
  | PNone => "None"
  | PBool true => "True"
  | PBool false => "False"
  | PInt z => pretty z
  | PFloat _ | PList _ | PDict _ => py_repr val
  end.

(** [coerce_float(val)] *)
Definition coerce_float (val : pyval) : res (option spec_float) :=
  match val with
  | PNone => Ok None
  | PBool b => f ← float_of_int (if b then 1 else 0); Ok (Some f)
  | PInt z => f ← float_of_int z; Ok (Some f)
  | PFloat f => Ok (Some f)
  | PStr _ | PList _ | PDict _ =>
      let s := strip py_isspace (py_str val) in
      let s := replace uminus "-" s in
      let s := re_sub_unit s in
      let s := replace "," "." s in
      Ok (py_float s)
  end.

(** [infer_type(props)] *)
Definition infer_type (props : pydict) : string :=
  let text :=
    lower (join " " (map (fun k => py_str (default (PStr "") (dict_get k props)))
                         TYPE_KEYS)) in
  if existsb (fun x => contains x text) ["bridge"; "bridged"] then "bridge"
  else if existsb (fun x => contains x text)
            ["ap"; "access point"; "infrastructure"; "base station"] then "ap"
  else if existsb (fun x => contains x text)
            ["client"; "station"; "sta"; "phone"; "laptop"] then "client"
  else if dict_has "ssid" props
          && py_truthy (default PNone (dict_get "ssid" props)) then "ap"
  else "unknown".

(** First loop of [extract_signal_dbm]: the ranked flat keys. *)
Fixpoint scan_signal_keys (keys : list string) (props : pydict)
  : res (option spec_float) :=
  match keys with
  | [] => Ok None
  | key :: rest =>
      if dict_has key props then
        val ← coerce_float (default PNone (dict_get key props));
        match val with
        | Some x => Ok (Some x)
        | None => scan_signal_keys rest props
        end
      else scan_signal_keys rest props
  end.

Definition names_signal (kk : string) : bool :=
  existsb (fun p => contains p (lower kk)) ["signal"; "dbm"].

(** Inner loop over the items of one nested dict; [None] means the loop
    ran to its end. *)
Fixpoint scan_nested_items (items : pydict) : res (option spec_float) :=
  match items with
  | [] => Ok None
  | (kk, vv) :: rest =>
      if names_signal kk then
        cand ← coerce_float vv;
        match cand with
        | Some x => Ok (Some x)
        | None => scan_nested_items rest
        end
      else scan_nested_items rest
  end.

(** Second loop of [extract_signal_dbm]: the values that are dicts. *)
Fixpoint scan_nested (items : pydict) : res (option spec_float) :=
  match items with
  | [] => Ok None
  | (k, v) :: rest =>
      match v with
      | PDict d =>
          found ← scan_nested_items d;
          match found with
          | Some x => Ok (Some x)
          | None => scan_nested rest
          end
      | _ => scan_nested rest
      end
  end.

(** [extract_signal_dbm(props)] *)
Definition extract_signal_dbm (props : pydict) : res (option spec_float) :=
  flat ← scan_signal_keys SIGNAL_KEYS props;
  match flat with
  | Some x => Ok (Some x)
  | None => scan_nested props
  end.

End Runtime.

(** ** The page script of [HTML_TEMPLATE] *)

(** JavaScript values: what the embedded JSON evaluates to, and
    [undefined] for a property that is not there. *)
Inductive jsval : Type :=
  | JUndef
  | JNull
  | JBool (b : bool)
  | JNum (f : spec_float)
  | JStr (s : string)
  | JArr (l : list jsval)
  | JObj (o : list (string * jsval)).

Abbreviation jsobj := (list (string * jsval)).

(** [props[k]] *)
Definition js_get (props : jsobj) (k : string) : jsval :=
  default JUndef (dict_get k props).

Definition js_truthy (v : jsval) : bool :=
  match v with
  | JUndef | JNull => false
  | JBool b => b
  | JNum f =>
      match f with
      | S754_zero _ | S754_nan => false
      | _ => true
      end
  | JStr s => negb (String.eqb s "")
  | JArr _ | JObj _ => true
  end.

(** [a || b] *)
Definition js_or (a b : jsval) : jsval := if js_truthy a then a else b.

(** [HTML_TEMPLATE] is a Python string literal that is not raw.  In such a
    literal the two characters backslash-b are the escape of the
    backspace, U+0008, so the regular expressions of [inferType] reach the
    page with that character where the template shows a word boundary, and
    match it literally.  (The other escapes of the script are not touched:
    backslash-s is no escape of Python and stays as it is, and backslash-u
    2212 becomes the minus sign itself, which the script literal meant.) *)
Definition backspace : string := String (ascii_of_N 8) "".

(** [re.test(s)]: the alternatives [alt] are tried at each position from the
    left. *)
Fixpoint regex_test (alt : string -> bool) (s : string) : bool :=
  alt s ||
  match s with
  | EmptyString => false
  | String _ r => regex_test alt r
  end.

(** [/\bbridge|bridged\b/], as the page holds it. *)
Definition re_bridge (s : string) : bool :=
  is_prefix (backspace ++ "bridge") s || is_prefix ("bridged" ++ backspace) s.

(** [/\bclient|station|\bsta\b/], as the page holds it. *)
Definition re_client (s : string) : bool :=
  is_prefix (backspace ++ "client") s
  || is_prefix "station" s
  || is_prefix (backspace ++ "sta" ++ backspace) s.

(** [/\bwifi\b/], as the page holds it. *)
Definition re_wifi (s : string) : bool :=
  is_prefix (backspace ++ "wifi" ++ backspace) s.

(** [s.replace(/\s*dBm?$/i, '')]: here [$] holds at the end of the text
    only. *)
Fixpoint js_sub_unit (s : string) : string :=
  if str_in (lower (lstrip js_isspace s)) ["db"; "dbm"] then ""
  else
    match s with
    | EmptyString => EmptyString
    | String c r => String c (js_sub_unit r)
    end.

(** The exponent part of the longest numeric prefix: [e]/[E], an optional
    sign and at least one digit; otherwise there is none. *)
Definition js_exponent (s : string) : Z :=
  match s with
  | String c r =>
      if Ascii.eqb (lower_char c) "e" then
        let '(eneg, r1) := split_sign r in
        let '(ed, _) := span_digits r1 in
        match ed with
        | String _ _ => if eneg then - digits_value 0 ed else digits_value 0 ed
        | EmptyString => 0
        end
      else 0
  | EmptyString => 0
  end.

(** [parseFloat(s)]: leading white space is skipped and the longest prefix
    that is a decimal literal (or a signed [Infinity]) is read; without
    such a prefix the result is NaN. *)
Definition parseFloat (s : string) : spec_float :=
  let '(neg, r) := split_sign (lstrip js_isspace s) in
  if is_prefix "Infinity" r then S754_infinity neg
  else
    let '(ip, r1) := span_digits r in
    let '(fp, r2) :=
      match r1 with
      | String c t => if Ascii.eqb c "." then span_digits t else (EmptyString, r1)
      | EmptyString => (EmptyString, r1)
      end in
    match ip ++ fp with
    | EmptyString => S754_nan
    | ds => b64_of_decimal neg (digits_value 0 ds)
              (js_exponent r2 - Z.of_nat (String.length fp))
    end.

(** One entry of [items]: the cached properties, signal ([null] is
    [None]) and type of a feature. *)
Record item : Type := Item {
  it_props : jsobj;
  it_signal : option spec_float;
  it_type : string
}.

(** The filter controls of the panel: the [.flt-type] check boxes (value
    and checked flag), the position of the [minsig] range input (an
    integer, since [step] is 1; [minsigEl.value] is its decimal text) and
    the text of the [ssidq] input. *)
Record controls : Type := Controls {
  typeEls : list (string * bool);
  minsig : Z;
  ssidq : string
}.

Section Page.

(** [Number.prototype.toString] is the browser's. *)
Variable js_number_string : spec_float -> string.

(** [String(v)]; inside an array, [null] and [undefined] print as the
    empty text. *)
Fixpoint js_to_string (v : jsval) : string :=
  match v with
  | JUndef => "undefined"
  | JNull => "null"
  | JBool true => "true"
  | JBool false => "false"
  | JNum f => js_number_string f
  | JStr s => s
  | JArr l =>
      join "," (map (fun e => match e with
                              | JUndef | JNull => ""
                              | _ => js_to_string e
                              end) l)
  | JObj _ => "[object Object]"
  end.

(** [coerceFloat(x)]; [null] is [None]. *)
Definition coerceFloat (x : jsval) : option spec_float :=
  match x with
  | JNull | JUndef => None
  | JNum f => Some f
  | _ =>
      let s := js_sub_unit (replace_first uminus "-" (strip js_isspace (js_to_string x))) in
      let s := replace_first "," "." s in
      let v := parseFloat s in
      if is_finite v then Some v else None
  end.

(** [inferType(props)] *)
Definition inferType (props : jsobj) : string :=
  let raw :=
    lower (join " " (map (fun k => js_to_string (js_or (js_get props k) (JStr "")))
                         TYPE_KEYS)) in
  let explicit :=
    lower (strip js_isspace
             (js_to_string
                (js_or (js_or (js_get props "Type") (js_get props "type"))
                       (JStr "")))) in
  if String.eqb explicit "client" then "client"
  else if String.eqb explicit "ap" || String.eqb explicit "access point" then "ap"
  else if String.eqb explicit "bridge" then "bridge"
  else if regex_test re_bridge raw then "bridge"
  else if regex_test re_client raw then "client"
  else if regex_test re_wifi raw then "ap"
  else
    let hasSsid :=
      js_truthy (js_or (js_or (js_get props "SSID") (js_get props "ssid"))
                       (js_get props "dot11.device.ssid")) in
    let hasChan :=
      js_truthy (js_or (js_or (js_get props "Channel") (js_get props "channel"))
                       (js_get props "kismet.device.base.channel")) in
    if hasSsid && hasChan then "ap"
    else
      let enc :=
        lower (js_to_string
                 (js_or (js_or (js_get props "Encryption") (js_get props "encryption"))
                        (JStr ""))) in
      if negb (String.eqb enc "") && negb (String.eqb enc "unknown")
         && negb (String.eqb enc "open") then "ap"
      else "unknown".

(** [activeTypes()] *)
Definition activeTypes (c : controls) : gset string :=
  list_to_set (map fst (filter (fun e => Is_true (snd e)) (typeEls c))).

(** [ssidQuery()] *)
Definition ssidQuery (c : controls) : string :=
  lower (strip js_isspace (ssidq c)).

(** [passesFilters(it)] *)
Definition passesFilters (c : controls) (it : item) : bool :=
  if negb (bool_decide (it_type it ∈ activeTypes c)) then false
  else
    let minSig := b64_of_Z (minsig c) in
    if is_finite minSig
       && match it_signal it with
          | Some s => b64_lt s minSig
          | None => false
          end
    then false
    else
      let q := ssidQuery c in
      if negb (String.eqb q "")
         && negb (contains q
                    (lower (js_to_string
                              (js_or (js_or (js_or (js_get (it_props it) "SSID")
                                                   (js_get (it_props it) "ssid"))
                                            (js_get (it_props it) "dot11.device.ssid"))
                                     (JStr "")))))
      then false
      else true.

(** The counting loop of [refresh()]: [shown] after visiting [items]. *)
Fixpoint refresh_shown (c : controls) (items : list item) (shown : nat) : nat :=
  match items with
  | [] => shown
  | it :: rest =>
      refresh_shown c rest (if passesFilters c it then S shown else shown)
  end.

End Page.

(** ** [scripts/csv_to_geojson.py] *)

(** [to_float(val)]; [val] is a cell of the row, a [str] or [None]. *)
Definition to_float (val : option string) : option spec_float :=
  match val with
  | None => None
  | Some v =>
      let s := replace "-" "-" (replace "dbm" "" (lower (strip py_isspace v))) in
      if str_in s [""; "none"; "nan"; ""] then None
      else
        match py_float s with
        | Some x => Some x
        | None => py_float (replace "," "." s)
        end
  end.

(** A row of [csv.DictReader]: a cell is a [str], or [None] when the line
    is shorter than the header. *)
Abbreviation csv_row := (gmap string (option string)).

(** [row.get(k)] *)
Definition row_get (row : csv_row) (k : string) : option string :=
  match row !! k with
  | Some cell => cell
  | None => None
  end.

(** [row.get(k, d)] *)
Definition row_get_default (row : csv_row) (k d : string) : option string :=
  match row !! k with
  | Some cell => cell
  | None => Some d
  end.

Definition cell_truthy (cell : option string) : bool :=
  match cell with
  | Some s => negb (String.eqb s "")
  | None => false
  end.

(** [a or b] on cells *)
Definition cell_or (a b : option string) : option string :=
  if cell_truthy a then a else b.

Definition py_cell (cell : option string) : pyval :=
  match cell with
  | Some s => PStr s
  | None => PNone
  end.

Definition py_number (x : option spec_float) : pyval :=
  match x with
  | Some f => PFloat f
  | None => PNone
  end.

(** The literal [1e-4]. *)
Definition zero_tolerance : spec_float := b64_of_decimal false 1 (-4).

Definition point_feature (lon lat : spec_float) (properties : pydict) : pyval :=
  PDict [ ("type", PStr "Feature");
          ("geometry", PDict [ ("type", PStr "Point");
                               ("coordinates", PList [PFloat lon; PFloat lat]) ]);
          ("properties", PDict properties) ].

Definition feature_collection (features : list pyval) : pyval :=
  PDict [ ("type", PStr "FeatureCollection"); ("features", PList features) ].

(** Body of the row loop: the feature appended for [row], or [None] when
    the row is passed over by [continue]. *)
Definition csv_feature (row : csv_row) : option pyval :=
  let lat := cell_or (row_get row "CurrentLatitude") (row_get row "Latitude") in
  let lon := cell_or (row_get row "CurrentLongitude") (row_get row "Longitude") in
  if negb (cell_truthy lat) || negb (cell_truthy lon) then None
  else
    match py_float (default "" lat) with
    | None => None
    | Some lat =>
        match py_float (default "" lon) with
        | None => None
        | Some lon =>
            if b64_lt (b64_abs lat) zero_tolerance
               && b64_lt (b64_abs lon) zero_tolerance
            then None
            else
              let sig := to_float (row_get row "RSSI") in
              Some (point_feature lon lat
                      [ ("SSID", py_cell (row_get_default row "SSID" "hidden"));
                        ("BSSID", py_cell (row_get_default row "MAC" ""));
                        ("Channel", py_cell (row_get_default row "Channel" ""));
                        ("Signal", py_number sig);
                        ("Encryption", py_cell (row_get_default row "AuthMode" "")) ])
        end
    end.

(** The row loop, threading the list [features]. *)
Fixpoint csv_loop (rows : list csv_row) (features : list pyval) : list pyval :=
  match rows with
  | [] => features
  | row :: rest =>
      match csv_feature row with
      | Some feature => csv_loop rest (features ++ [feature])%list
      | None => csv_loop rest features
      end
  end.

(** The document written to the output file and the count printed. *)
Definition csv_to_geojson (rows : list csv_row) : pyval * nat :=
  let features := csv_loop rows [] in
  (feature_collection features, length features).

(** ** [scripts/parse_netxml.py] *)

(** An [xml.etree.ElementTree] element. *)
Inductive element : Type :=
  | Element (tag : string) (attrib : list (string * string))
            (text : option string) (children : list element).

Definition el_tag (e : element) : string :=
  match e with Element t _ _ _ => t end.
Definition el_attrib (e : element) : list (string * string) :=
  match e with Element _ a _ _ => a end.
Definition el_text (e : element) : option string :=
  match e with Element _ _ x _ => x end.
Definition el_children (e : element) : list element :=
  match e with Element _ _ _ c => c end.

(** [e.findall(path)] for a path of child tags separated by [/]. *)
Fixpoint findall (path : list string) (e : element) : list element :=
  match path with
  | [] => [e]
  | t :: rest =>
      flat_map (findall rest)
               (filter (fun c => Is_true (String.eqb (el_tag c) t)) (el_children e))
  end.

(** [e.find(path)] *)
Definition find (path : list string) (e : element) : option element :=
  head (findall path e).

(** A method call on the text of an element: [AttributeError] on [None]. *)
Definition on_text (f : string -> string) (t : option string) : res string :=
  match t with
  | Some s => Ok (f s)
  | None => Raise AttributeError
  end.

Definition or_else (s d : string) : string :=
  if String.eqb s "" then d else s.

(** Body of the loop of [parse_netxml] for the record [net], threading
    [rows] and [features]. *)
Definition parse_network (net : element)
    (acc : list (list pyval) * list pyval)
  : res (list (list pyval) * list pyval) :=
  let '(rows, features) := acc in
  let bssid := or_else (default "" (dict_get "BSSID" (el_attrib net))) "unknown" in
  let ssid_el := find ["SSID"; "essid"] net in
  ssid0 ← on_text (strip py_isspace)
            (match ssid_el with Some el => el_text el | None => Some "hidden" end);
  let ssid := or_else ssid0 "hidden" in
  let enc_el := find ["SSID"; "encryption"] net in
  enc ← on_text upper
          (match enc_el with Some el => el_text el | None => Some "unknown" end);
  let chan := match find ["channel"] net with
              | Some el => el_text el | None => Some "" end in
  let rssi := match find ["snr-info"; "last_signal_dbm"] net with
              | Some el => el_text el | None => Some "" end in
  let lat := match find ["gps-info"; "avg-lat"] net with
             | Some el => el_text el | None => None end in
  let lon := match find ["gps-info"; "avg-lon"] net with
             | Some el => el_text el | None => None end in
  let rows := (rows ++ [[PStr ssid; PStr bssid; PStr enc; py_cell chan;
                         py_cell lat; py_cell lon; py_cell rssi]])%list in
  if cell_truthy lat && cell_truthy lon then
    match py_float (default "" lon) with
    | None => Ok (rows, features)
    | Some flon =>
        match py_float (default "" lat) with
        | None => Ok (rows, features)
        | Some flat =>
            Ok (rows,
                (features ++
                   [point_feature flon flat
                      [ ("SSID", PStr ssid); ("BSSID", PStr bssid);
                        ("Encryption", PStr enc); ("Channel", py_cell chan);
                        ("Signal", py_cell rssi) ]])%list)
        end
    end
  else Ok (rows, features).

Fixpoint parse_networks (nets : list element)
    (acc : list (list pyval) * list pyval)
  : res (list (list pyval) * list pyval) :=
  match nets with
  | [] => Ok acc
  | net :: rest => acc' ← parse_network net acc; parse_networks rest acc'
  end.

(** [parse_netxml(path)], given the root element of the parsed file. *)
Definition parse_netxml (root : element) : res (list (list pyval) * pyval) :=
  '(rows, features) ← parse_networks (findall ["wireless-network"] root) ([], []);
  Ok (rows, feature_collection features).

(** ** Statements of the specification, in its own words *)

(** §4.2, rule 1: the category an explicit text names. *)
Definition explicit_category (e : string) : option string :=
  if String.eqb e "client" then Some "client"
  else if str_in e ["ap"; "access point"] then Some "ap"
  else if String.eqb e "bridge" then Some "bridge"
  else None.




(** §4.1, steps 1 and 2: the values tried, in order.  First the values of
    the ranked keys that are present, then, for each value that is a
    mapping, its entries whose key names a signal. *)
Definition flat_candidates (props : pydict) : list pyval :=
  omap (fun k => dict_get k props) SIGNAL_KEYS.

Definition nested_candidates (props : pydict) : list pyval :=
  flat_map (fun kv => match snd kv with
                      | PDict d => map snd (filter (fun e => Is_true (names_signal (fst e))) d)
                      | _ => []
                      end) props.

Definition ranked_candidates (props : pydict) : list pyval :=
  (flat_candidates props ++ nested_candidates props)%list.

(** The first candidate that coerces to a number. *)
Fixpoint first_coerced (coerce : pyval -> res (option spec_float))
    (cands : list pyval) : res (option spec_float) :=
  match cands with
  | [] => Ok None
  | v :: rest =>
      match coerce v with
      | Ok None => first_coerced coerce rest
      | r => r
      end
  end.

(** §4.3: the coordinate cell read with preference for [preferred]. *)
Definition preferred_cell (row : csv_row) (preferred fallback : string)
  : option string :=
  match row !! preferred with
  | Some (Some s) => if String.eqb s "" then row_get row fallback else Some s
  | _ => row_get row fallback
  end.

Definition near_zero (x : spec_float) : Prop :=
  b64_lt (b64_abs x) zero_tolerance = true.

(** Why a row is passed over (§4.3). *)
Inductive no_position (row : csv_row) : Prop :=
  | lat_missing :
      cell_truthy (preferred_cell row "CurrentLatitude" "Latitude") = false ->
      no_position row
  | lon_missing :
      cell_truthy (preferred_cell row "CurrentLongitude" "Longitude") = false ->
      no_position row
  | lat_not_numeric s :
      preferred_cell row "CurrentLatitude" "Latitude" = Some s ->
      py_float s = None -> no_position row
  | lon_not_numeric s :
      preferred_cell row "CurrentLongitude" "Longitude" = Some s ->
      py_float s = None -> no_position row
  | no_fix s t lat lon :
      preferred_cell row "CurrentLatitude" "Latitude" = Some s ->
      preferred_cell row "CurrentLongitude" "Longitude" = Some t ->
      py_float s = Some lat -> py_float t = Some lon ->
      near_zero lat -> near_zero lon -> no_position row.

(** §4.4: an element that is present but has no text. *)
Definition empty_element (path : list string) (net : element) : Prop :=
  exists el, find path net = Some el /\ el_text el = None.

(** The text found at [path] under a record, if any. *)
Definition text_at (path : list string) (net : element) : option string :=
  match find path net with
  | Some el => el_text el
  | None => None
  end.

(** §4.4: both average coordinates are present, non-empty and the text of
    a float. *)
Definition has_position (net : element) : Prop :=
  exists lat lon x y,
    text_at ["gps-info"; "avg-lat"] net = Some lat /\ lat <> ""
    /\ text_at ["gps-info"; "avg-lon"] net = Some lon /\ lon <> ""
    /\ py_float lat = Some x /\ py_float lon = Some y.

(** §4.5: the range of the minimum-signal slider. *)
Definition slider_in_range (c : controls) : Prop :=
  -120 <= minsig c <= -20.

(** The positions the slider can take: -120, -119, ..., -20. *)
Definition slider_positions : list Z :=
  map (fun n => -120 + Z.of_nat n) (seq 0 101).

(** On the slider, the thresholds [parseFloat] yields are finite and ordered
    like the positions. *)
Definition slider_thresholds_ordered : bool :=
  forallb (fun lo =>
    is_finite (b64_of_Z lo)
    && forallb (fun hi => implb (lo <=? hi)%Z (b64_le (b64_of_Z lo) (b64_of_Z hi)))
               slider_positions)
    slider_positions.

Definition not_letter_d (c : ascii) : bool := negb (Ascii.eqb (lower_char c) "d").

Definition not_comma (c : ascii) : bool := negb (Ascii.eqb c ",").

(** What [s.replace(",", ".")] does to one character. *)
Definition decimal_point (c : ascii) : ascii :=
  if Ascii.eqb c "," then "."%char else c.

(** A reading on which the two coercions are compared: a text of the
    ASCII range (so without a Unicode minus sign) that after trimming is
    [body] followed by [unit], where [body] has no letter d and is not the
    word nan, [unit] is nothing or "dbm" in any letter case, and the white
    space that ends [body], before the unit, is white space for [float]
    too (none of the separators FS..US). *)
Record plain_reading (text body unit : string) : Prop := {
  reading_ascii : sall is_ascii text = true;
  reading_trimmed : strip py_isspace text = body ++ unit;
  reading_body : sall not_letter_d body = true;
  reading_unit : unit = "" \/ lower unit = "dbm";
  reading_gap : rstrip float_isspace body = rstrip py_isspace body;
  reading_not_nan : lower body <> "nan"
}.

(** ** Sample inputs *)

(** Scenario 1 of §8. *)
Definition scenario1_row : csv_row :=
  <["CurrentLatitude" := Some "47.5"]>
    (<["CurrentLongitude" := Some "19.0"]>
       (<["RSSI" := Some "-67dbm"]> (<["SSID" := Some ""]> ∅))).

(** Scenario 2 of §8. *)
Definition scenario2_row : csv_row :=
  <["CurrentLatitude" := Some "0"]> (<["CurrentLongitude" := Some "0"]> ∅).

Definition leaf (tag text : string) : element := Element tag [] (Some text) [].

Definition network_located : element :=
  Element "wireless-network" [("BSSID", "AA:BB:CC:00:11:22")] None
    [ Element "SSID" [] None [leaf "essid" " home "; leaf "encryption" "wpa2"];
      leaf "channel" "6";
      Element "gps-info" [] None [leaf "avg-lat" "47.5"; leaf "avg-lon" "19.0"] ].

(** [<essid></essid>]: the element is there, its text is [None]. *)
Definition network_blank_essid : element :=
  Element "wireless-network" [("BSSID", "AA:BB:CC:00:11:33")] None
    [ Element "SSID" [] None [Element "essid" [] None []; leaf "encryption" "wpa2"];
      Element "gps-info" [] None [leaf "avg-lat" "47.6"; leaf "avg-lon" "19.1"] ].

Definition netxml_sample : element :=
  Element "detection-run" [] None
    [network_located; network_blank_essid; network_located].

(** Scenario 4 of §8: a record at -65 dBm, the threshold at -60 with only
    the access-point box checked, and the controls after a reset. *)
Definition record_minus65 : item :=
  Item [("SSID", JStr "eduroam"); ("Signal dBm", JStr "-65")]
       (Some (b64_of_Z (-65))) "ap".

Definition controls_threshold60 : controls :=
  Controls [("ap", true); ("client", false); ("bridge", false); ("unknown", false)]
           (-60) "".

Definition controls_reset : controls :=
  Controls [("ap", true); ("client", true); ("bridge", true); ("unknown", true)]
           (-120) "".






(** A reading with white space around, a decimal comma and the unit. *)
Definition reading_with_unit : string := " -67,5 dBm ".

(** A reading with the unit separator, U+001F, before the unit. *)
Definition reading_with_separator : string :=
  "-67" ++ String (ascii_of_N 31) "dBm".

(** A stand-in for the number printer, for running the page's functions. *)
Definition number_blank : spec_float -> string := fun _ => "".

(** A stand-in for [repr], for running the Python functions. *)
Definition repr_blank : pyval -> string := fun _ => "".

(** ** More of the page script *)

(** An array index among property names: the canonical decimal text of an
    integer below 2^32 - 1.  [Object.entries] lists such names first, in
    ascending order, and the other names after them in insertion order. *)
Definition array_index (k : string) : option Z :=
  match k with
  | EmptyString => None
  | String c r =>
      if sall is_digit k
         && (negb (Ascii.eqb c "0") || String.eqb r "")
         && Z.ltb (digits_value 0 k) 4294967295
      then Some (digits_value 0 k)
      else None
  end.

Fixpoint insert_by_index (i : Z) (e : string * jsval)
    (l : list (Z * (string * jsval))) : list (Z * (string * jsval)) :=
  match l with
  | [] => [(i, e)]
  | (j, e') :: r =>
      if Z.ltb i j then (i, e) :: l else (j, e') :: insert_by_index i e r
  end.

Fixpoint indexed_entries (o : jsobj) : list (Z * (string * jsval)) :=
  match o with
  | [] => []
  | e :: r =>
      match array_index (fst e) with
      | Some i => insert_by_index i e (indexed_entries r)
      | None => indexed_entries r
      end
  end.

Fixpoint named_entries (o : jsobj) : jsobj :=
  match o with
  | [] => []
  | e :: r =>
      match array_index (fst e) with
      | Some _ => named_entries r
      | None => e :: named_entries r
      end
  end.

(** [Object.entries(o)] for an object. *)
Definition object_entries (o : jsobj) : jsobj :=
  (map snd (indexed_entries o) ++ named_entries o)%list.

(** [Object.entries(v)] for a value with [typeof v === 'object']: an
    object, or an array, whose entries are named by the indices. *)
Definition value_entries (v : jsval) : jsobj :=
  match v with
  | JObj o => object_entries o
  | JArr l => imap (fun i e => (pretty (N.of_nat i), e)) l
  | _ => []
  end.

(** [v && typeof v === 'object'] *)
Definition truthy_object (v : jsval) : bool :=
  match v with
  | JObj _ | JArr _ => true
  | _ => false
  end.

(** [TYPE_COLORS] *)
Definition TYPE_COLORS : list (string * string) :=
  [ ("bridge", "#1e88e5"); ("ap", "#43a047");
    ("client", "#fb8c00"); ("unknown", "#9e9e9e") ].

(** [colorBySignal(dbm)]; [null] is [None]. *)
Definition colorBySignal (dbm : option spec_float) : string :=
  match dbm with
  | None => "#9e9e9e"
  | Some d =>
      if b64_le (b64_of_Z (-60)) d then "#2e7d32"
      else if b64_le (b64_of_Z (-75)) d then "#f9a825"
      else "#c62828"
  end.

(** [signalBucket(dbm)] *)
Definition signalBucket (dbm : option spec_float) : string :=
  match dbm with
  | None => "N/A"
  | Some d =>
      if b64_le (b64_of_Z (-60)) d then "≥ -60 dBm"
      else if b64_le (b64_of_Z (-75)) d then "-75 to -60 dBm"
      else "< -75 dBm"
  end.

(** [markerStyle(it)], given the value of [currentMode()].  The lookup
    [TYPE_COLORS[it.type]] is that of the four own keys; [it.type] is a
    result of [inferType]. *)
Definition markerStyle (mode : string) (it : item) : string :=
  if String.eqb mode "type" then
    match dict_get (it_type it) TYPE_COLORS with
    | Some color => color
    | None => default "" (dict_get "unknown" TYPE_COLORS)
    end
  else colorBySignal (it_signal it).

Section PageSignal.

Variable js_number_string : spec_float -> string.

(** First loop of [extractSignal]: the ranked keys. *)
Fixpoint scan_ranked_keys (keys : list string) (props : jsobj) : option spec_float :=
  match keys with
  | [] => None
  | k :: rest =>
      if dict_has k props then
        match coerceFloat js_number_string (js_get props k) with
        | Some v => Some v
        | None => scan_ranked_keys rest props
        end
      else scan_ranked_keys rest props
  end.

(** Inner loop over the entries of one nested value. *)
Fixpoint scan_entries (entries : jsobj) : option spec_float :=
  match entries with
  | [] => None
  | (kk, vv) :: rest =>
      if names_signal kk then
        match coerceFloat js_number_string vv with
        | Some c => Some c
        | None => scan_entries rest
        end
      else scan_entries rest
  end.

(** Second loop of [extractSignal]: the entries that are objects. *)
Fixpoint scan_objects (entries : jsobj) : option spec_float :=
  match entries with
  | [] => None
  | (k, v) :: rest =>
      if truthy_object v then
        match scan_entries (value_entries v) with
        | Some c => Some c
        | None => scan_objects rest
        end
      else scan_objects rest
  end.

(** [extractSignal(props)]; [null] is [None]. *)
Definition extractSignal (props : jsobj) : option spec_float :=
  match scan_ranked_keys SIGNAL_KEYS props with
  | Some v => Some v
  | None => scan_objects (object_entries props)
  end.

End PageSignal.

(** ** From the written GeoJSON to the page *)

(** The value the page sees for a value dumped by [json.dumps] into the
    script: the same structure, an [int] read as the nearest number.
    (Exact for dicts whose keys are not array indices; the dicts written by
    the two ingest scripts have fixed keys.) *)
Fixpoint js_of_py (v : pyval) : jsval :=
  match v with
  | PNone => JNull
  | PBool b => JBool b
  | PInt z => JNum (b64_of_Z z)
  | PFloat f => JNum f
  | PStr s => JStr s
  | PList l => JArr (map js_of_py l)
  | PDict d => JObj (map (fun kv => (fst kv, js_of_py (snd kv))) d)
  end.

(** ** [make_map.py]: the check of the loaded document in [main] *)

Inductive main_exn : Type :=
  | MainAttributeError
  | MainValueError.

(** [d[k] = v]: an existing key keeps its place, a new key goes last. *)
Fixpoint dict_set {V : Type} (k : string) (v : V) (d : list (string * V))
  : list (string * V) :=
  match d with
  | [] => [(k, v)]
  | (k', v') :: r =>
      if String.eqb k k' then (k, v) :: r else (k', v') :: dict_set k v r
  end.

(** The validation block of [main]: the document handed to [build_html],
    or the exception raised.  [geo.get] exists on a dict only. *)
Definition ensure_feature_collection (geo : pyval) : main_exn + pyval :=
  match geo with
  | PDict d =>
      let declared :=
        match dict_get "type" d with
        | Some (PStr t) => String.eqb t "FeatureCollection"
        | _ => false
        end in
      if declared then inr geo
      else if dict_has "features" d
      then inr (PDict (dict_set "type" (PStr "FeatureCollection") d))
      else inl MainValueError
  | _ => inl MainAttributeError
  end.

(** ** More statements and sample inputs *)

(** A row whose latitude cell reads "nan". *)
Definition row_nan_latitude : csv_row :=
  <["CurrentLatitude" := Some "nan"]>
    (<["CurrentLongitude" := Some "19.0"]> (<["SSID" := Some "cafe"]> ∅)).

(** §4.4, as a test: both average coordinates are present, non-empty and
    the text of a float. *)
Definition located (net : element) : bool :=
  match text_at ["gps-info"; "avg-lat"] net, text_at ["gps-info"; "avg-lon"] net with
  | Some lat, Some lon =>
      negb (String.eqb lat "") && negb (String.eqb lon "")
      && bool_decide (is_Some (py_float lat)) && bool_decide (is_Some (py_float lon))
  | _, _ => false
  end.

(** Every [essid] and [encryption] element of the record carries text. *)
Definition texts_present (net : element) : Prop :=
  ~ empty_element ["SSID"; "essid"] net /\ ~ empty_element ["SSID"; "encryption"] net.

(** A record with coordinates that are not numbers. *)
Definition network_bad_position : element :=
  Element "wireless-network" [] None
    [ Element "SSID" [] None [leaf "essid" "  "];
      Element "gps-info" [] None [leaf "avg-lat" "n/a"; leaf "avg-lon" "19.0"] ].

(** A located record with a last signal. *)
Definition network_with_signal : element :=
  Element "wireless-network" [("BSSID", "AA:BB:CC:00:11:22")] None
    [ Element "SSID" [] None [leaf "essid" "home"; leaf "encryption" "WPA2"];
      leaf "channel" "6";
      Element "snr-info" [] None [leaf "last_signal_dbm" "-61"];
      Element "gps-info" [] None [leaf "avg-lat" "47.5"; leaf "avg-lon" "19.0"] ].

Definition netxml_texts_sample : element :=
  Element "detection-run" [] None
    [network_located; network_bad_position; network_located].

(** [x] is held as a number by [props], at the top or one level down. *)
Definition stored_number (props : jsobj) (x : spec_float) : Prop :=
  (exists k, In (k, JNum x) props)
  \/ (exists k v kk, In (k, v) props /\ In (kk, JNum x) (value_entries v)).

(** The properties of a dict as the page sees them. *)
Definition page_props (properties : pydict) : jsobj :=
  map (fun kv => (fst kv, js_of_py (snd kv))) properties.

(** No type-ish field of [props] holds a truthy value. *)
Definition no_type_field (props : jsobj) : Prop :=
  forall k, In k TYPE_KEYS -> js_truthy (js_get props k) = false.

(** The property names the two ingest scripts write. *)
Definition INGEST_KEYS : list string :=
  ["SSID"; "BSSID"; "Channel"; "Signal"; "Encryption"].

(** A text, a float or [None]. *)
Definition scalar (v : pyval) : bool :=
  match v with
  | PStr _ | PFloat _ | PNone => true
  | _ => false
  end.

(** A property dict of the shape the ingest scripts write. *)
Definition ingest_properties (properties : pydict) : Prop :=
  Forall (fun kv => In (fst kv) INGEST_KEYS /\ scalar (snd kv) = true) properties.

(** The page's answers for a feature with the properties [properties]:
    no signal, from the generator or from the page, and a type that is
    "ap" or "unknown". *)
Definition shown_without_signal (py_repr : pyval -> string)
    (js_number_string : spec_float -> string) (properties : pydict) : Prop :=
  extract_signal_dbm py_repr properties = Ok None
  /\ extractSignal js_number_string (page_props properties) = None
  /\ (inferType js_number_string (page_props properties) = "ap"
      \/ inferType js_number_string (page_props properties) = "unknown").

(** The two texts [inferType] works on: [raw], the type-ish fields joined
    by blanks in lower case, and [explicit], the explicit field trimmed and
    in lower case. *)
Definition raw_type_text (js_number_string : spec_float -> string)
    (props : jsobj) : string :=
  lower (join " " (map (fun k => js_to_string js_number_string
                                   (js_or (js_get props k) (JStr "")))
                       TYPE_KEYS)).

Definition explicit_type_text (js_number_string : spec_float -> string)
    (props : jsobj) : string :=
  lower (strip js_isspace
           (js_to_string js_number_string
              (js_or (js_or (js_get props "Type") (js_get props "type"))
                     (JStr "")))).

(** Type-ish fields that say wifi and bridged, in plain words. *)
Definition props_wifi_bridged : jsobj :=
  [ ("type", JStr "WIFI"); ("typename", JStr "bridged network") ].

(** * Properties *)

(** ** Numeric coercion on sample readings *)


(** C4, at the inputs where it fails.  The signal extractor hands back what
    [float] makes of the words "nan" and "-inf": a NaN and an infinity,
    neither of them finite.  The page's copy of the coercion tests
    [Number.isFinite] and answers [null] on the same texts. *)
Theorem extract_signal_dbm_not_finite (py_repr : pyval -> string)
    (js_number_string : spec_float -> string) :
  extract_signal_dbm py_repr [("signal", PStr "nan")] = Ok (Some S754_nan)
  /\ extract_signal_dbm py_repr [("Signal dBm", PStr "-inf")]
     = Ok (Some (S754_infinity true))
  /\ is_finite S754_nan = false
  /\ is_finite (S754_infinity true) = false
  /\ coerceFloat js_number_string (JStr "nan") = None
  /\ coerceFloat js_number_string (JStr "-inf") = None
  /\ coerceFloat js_number_string (JStr "-Infinity") = None
  /\ coerceFloat js_number_string (JStr "-67 dBm") = Some (b64_of_Z (-67)).
Proof. repeat split; vm_compute; reflexivity. Qed.

(** ** CSV ingest *)

(** C2, at the row of scenario 1.  One feature is written, at [19.0, 47.5]
    and with Signal -67.0, but its SSID is the blank text of the cell, not
    "hidden". *)
Theorem csv_blank_ssid_kept :
  csv_feature scenario1_row
  = Some (point_feature (b64_of_Z 19) (b64_of_ratio false 95 2)
            [ ("SSID", PStr ""); ("BSSID", PStr ""); ("Channel", PStr "");
              ("Signal", PFloat (b64_of_Z (-67))); ("Encryption", PStr "") ])
  /\ snd (csv_to_geojson [scenario1_row]) = 1%nat.
Proof. split; vm_compute; reflexivity. Qed.

(** ** netxml ingest *)

(** C8, at a document where it fails.  The second of three records has an
    [essid] element without text: [parse_netxml] raises, so no row and no
    feature is returned for any of the three. *)
Theorem parse_netxml_sample_aborts :
  parse_netxml netxml_sample = Raise AttributeError
  /\ length (findall ["wireless-network"] netxml_sample) = 3%nat.
Proof. split; vm_compute; reflexivity. Qed.

Lemma on_text_raises f t e : on_text f t = Raise e -> e = AttributeError.
Proof. destruct t; simpl; congruence. Qed.

(** The only exception of the loop body is [AttributeError]. *)
Lemma parse_network_raises net acc e :
  parse_network net acc = Raise e -> e = AttributeError.
Proof.
  unfold parse_network. destruct acc as [rows features].
  destruct (on_text (strip py_isspace) _) as [ssid0|e1] eqn:Hs; simpl.
  2: { intros [= <-]. eauto using on_text_raises. }
  destruct (on_text upper _) as [enc|e2] eqn:He; simpl.
  2: { intros [= <-]. eauto using on_text_raises. }
  repeat case_match; discriminate.
Qed.

Lemma parse_network_blank net acc :
  empty_element ["SSID"; "essid"] net \/ empty_element ["SSID"; "encryption"] net ->
  parse_network net acc = Raise AttributeError.
Proof.
  intros H. unfold parse_network. destruct acc as [rows features].
  destruct H as [(el & Hf & Ht)|(el & Hf & Ht)].
  - rewrite Hf, Ht. reflexivity.
  - destruct (on_text (strip py_isspace) _) as [ssid0|e1] eqn:Hs; simpl.
    + rewrite Hf, Ht. reflexivity.
    + f_equal. eauto using on_text_raises.
Qed.

Lemma parse_networks_blank nets net acc :
  In net nets ->
  empty_element ["SSID"; "essid"] net \/ empty_element ["SSID"; "encryption"] net ->
  parse_networks nets acc = Raise AttributeError.
Proof.
  intros Hin Hblank. revert acc.
  induction nets as [|n rest IH]; intros acc; [destruct Hin|].
  simpl. destruct Hin as [->|Hin].
  - rewrite parse_network_blank by assumption. reflexivity.
  - destruct (parse_network n acc) as [acc'|e] eqn:Hn; simpl.
    + apply IH, Hin.
    + f_equal. eauto using parse_network_raises.
Qed.

(** C10. [parse_netxml] is not total: whenever some wireless-network record
    of the document has an [essid] element, or an [encryption] element,
    that is present without text, the call raises [AttributeError] and
    returns neither rows nor features; no default is substituted. *)
Theorem parse_netxml_blank_text_raises (root net : element) :
  In net (findall ["wireless-network"] root) ->
  empty_element ["SSID"; "essid"] net \/ empty_element ["SSID"; "encryption"] net ->
  parse_netxml root = Raise AttributeError.
Proof.
  intros Hin Hblank. unfold parse_netxml.
  rewrite (parse_networks_blank _ net) by assumption. reflexivity.
Qed.

Lemma parse_netxml_blank_text_raises_witness :
  In network_blank_essid (findall ["wireless-network"] netxml_sample)
  /\ empty_element ["SSID"; "essid"] network_blank_essid
  /\ parse_netxml netxml_sample = Raise AttributeError.
Proof.
  assert (Hin : In network_blank_essid (findall ["wireless-network"] netxml_sample))
    by (vm_compute; tauto).
  assert (Hb : empty_element ["SSID"; "essid"] network_blank_essid)
    by (exists (Element "essid" [] None []); split; reflexivity).
  split; [exact Hin|]. split; [exact Hb|].
  exact (parse_netxml_blank_text_raises netxml_sample network_blank_essid Hin (or_introl Hb)).
Defined.

(** *** Records whose elements carry text *)

Lemma on_text_present f path net d :
  ~ empty_element path net ->
  exists s, on_text f (match find path net with
                       | Some el => el_text el
                       | None => Some d
                       end) = Ok s.
Proof.
  intros H. destruct (find path net) as [el|] eqn:Hf; [|eexists; reflexivity].
  destruct (el_text el) as [s|] eqn:Ht; [eexists; reflexivity|].
  exfalso. apply H. exists el. rewrite Hf. split; [reflexivity|exact Ht].
Qed.

(** For such a record the loop body appends exactly one row, and one
    feature exactly when the record has a position. *)
Lemma parse_network_texts_present net rows features :
  ~ empty_element ["SSID"; "essid"] net ->
  ~ empty_element ["SSID"; "encryption"] net ->
  exists row,
    (has_position net
     /\ exists feature,
          parse_network net (rows, features)
          = Ok ((rows ++ [row])%list, (features ++ [feature])%list))
    \/ (~ has_position net
        /\ parse_network net (rows, features) = Ok ((rows ++ [row])%list, features)).
Proof.
  intros Hs He. unfold parse_network.
  destruct (on_text_present (strip py_isspace) _ net "hidden" Hs) as [ssid0 ->].
  destruct (on_text_present upper _ net "unknown" He) as [enc ->].
  cbn [mbind res_bind].
  unfold has_position, text_at.
  destruct (find ["gps-info"; "avg-lat"] net) as [late|];
    [destruct (el_text late) as [lat|]|];
    (destruct (find ["gps-info"; "avg-lon"] net) as [lone|];
      [destruct (el_text lone) as [lon|]|]);
    cbn [cell_truthy andb default id];
    eexists.
  all: rewrite ?andb_false_r.
  all: try (right; split; [intros (?&?&?&?&?&?&?&?&?&?); discriminate|reflexivity]).
  destruct (String.eqb_spec lat ""); cbn [negb andb].
  { right; split; [intros (?&?&?&?&[= <-]&?&?&?&?&?); congruence|reflexivity]. }
  destruct (String.eqb_spec lon ""); cbn [negb].
  { right; split; [intros (?&?&?&?&?&?&[= <-]&?&?&?); congruence|reflexivity]. }
  destruct (py_float lon) as [y|] eqn:Hy.
  2:{ right; split; [intros (?&?&?&?&?&?&[= <-]&?&?&?); congruence|reflexivity]. }
  destruct (py_float lat) as [x|] eqn:Hx.
  2:{ right; split; [intros (?&?&?&?&[= <-]&?&?&?&?&?); congruence|reflexivity]. }
  left. split; [|eexists; reflexivity].
  exists lat, lon, x, y. repeat split; assumption || reflexivity.
Qed.

(** Over records whose [essid] and [encryption] elements carry text, the
    loop returns one row per record and at most one feature per record. *)
Lemma parse_networks_texts_present nets rows features :
  Forall (fun net => ~ empty_element ["SSID"; "essid"] net
                     /\ ~ empty_element ["SSID"; "encryption"] net) nets ->
  exists rows' features',
    parse_networks nets (rows, features)
    = Ok ((rows ++ rows')%list, (features ++ features')%list)
    /\ length rows' = length nets
    /\ (length features' <= length nets)%nat.
Proof.
  intros H. revert rows features.
  induction H as [|net rest [Hs He] _ IH]; intros rows features.
  - exists [], []. rewrite !app_nil_r. repeat split; reflexivity || lia.
  - cbn [parse_networks].
    destruct (parse_network_texts_present net rows features Hs He)
      as [row [[_ [feature ->]]|[_ ->]]]; cbn [mbind res_bind].
    + destruct (IH (rows ++ [row])%list (features ++ [feature])%list)
        as (rows' & features' & -> & Hr & Hf).
      exists (row :: rows'), (feature :: features').
      rewrite <- !app_assoc. simpl. repeat split; lia.
    + destruct (IH (rows ++ [row])%list features)
        as (rows' & features' & -> & Hr & Hf).
      exists (row :: rows'), features'.
      rewrite <- !app_assoc. simpl. repeat split; lia.
Qed.

(** ** CSV ingest: rows passed over *)

Lemma preferred_cell_or row preferred fallback :
  cell_or (row_get row preferred) (row_get row fallback)
  = preferred_cell row preferred fallback.
Proof.
  unfold cell_or, preferred_cell, row_get at 1 2, cell_truthy.
  destruct (row !! preferred) as [[s|]|]; try reflexivity.
  destruct (String.eqb s ""); reflexivity.
Qed.

Lemma csv_loop_app rows1 rows2 features :
  csv_loop (rows1 ++ rows2) features = csv_loop rows2 (csv_loop rows1 features).
Proof.
  revert features. induction rows1 as [|row rest IH]; intros features; simpl.
  - reflexivity.
  - destruct (csv_feature row); apply IH.
Qed.

Lemma csv_feature_no_position row : no_position row -> csv_feature row = None.
Proof.
  intros H. unfold csv_feature. rewrite !preferred_cell_or.
  destruct H as [H|H|s Hs Hf|t Ht Hf|s t lat lon Hs Ht Hlat Hlon Hzlat Hzlon].
  - rewrite H. reflexivity.
  - rewrite H, orb_true_r. reflexivity.
  - rewrite Hs. simpl. rewrite Hf. destruct (_ || _); reflexivity.
  - rewrite Ht. simpl. rewrite Hf. repeat case_match; reflexivity.
  - rewrite Hs, Ht. simpl. rewrite Hlat, Hlon.
    unfold near_zero in Hzlat, Hzlon. rewrite Hzlat, Hzlon.
    destruct (_ || _); reflexivity.
Qed.

(** C7. A row is passed over, and leaves the written collection and the
    reported count as they are without it, when a coordinate read with
    preference for CurrentLatitude / CurrentLongitude is missing or blank,
    when it is not the text of a float, and when latitude and longitude
    are both within the tolerance 1e-4 of zero. *)
Theorem csv_row_without_position_skipped (row : csv_row) :
  no_position row ->
  csv_feature row = None
  /\ forall before after,
       csv_to_geojson (before ++ row :: after) = csv_to_geojson (before ++ after).
Proof.
  intros H. pose proof (csv_feature_no_position row H) as Hnone.
  split; [exact Hnone|]. intros before after.
  unfold csv_to_geojson. rewrite !csv_loop_app. simpl. rewrite Hnone. reflexivity.
Qed.

(** The row of scenario 2, CurrentLatitude=0 and CurrentLongitude=0, is
    dropped and the count is that of the other rows. *)
Lemma csv_row_without_position_skipped_witness :
  no_position scenario2_row
  /\ csv_feature scenario2_row = None
  /\ snd (csv_to_geojson [scenario1_row; scenario2_row])
     = snd (csv_to_geojson [scenario1_row]).
Proof.
  assert (H : no_position scenario2_row).
  { apply (no_fix scenario2_row "0" "0" (S754_zero false) (S754_zero false));
      vm_compute; reflexivity. }
  split; [exact H|].
  destruct (csv_row_without_position_skipped scenario2_row H) as [Hnone Hcount].
  split; [exact Hnone|].
  exact (f_equal snd (Hcount [scenario1_row] [])).
Defined.

(** ** The filter of the page *)

(** Order of binary64 values: [<] followed by [<=] is [<]. *)
Lemma b64_lt_le_trans (a b c : spec_float) :
  b64_lt a b = true -> b64_le b c = true -> b64_lt a c = true.
Proof.
  unfold b64_lt, b64_le, SFltb, SFleb, SFcompare.
  destruct a as [sa|sa| |sa ma ea], b as [sb|sb| |sb mb eb], c as [sc|sc| |sc mc ec];
    try destruct sa; try destruct sb; try destruct sc;
    try discriminate; try reflexivity;
    change (Pos.compare_cont Eq) with Pos.compare;
    destruct (Z.compare_spec ea eb), (Z.compare_spec eb ec), (Z.compare_spec ea ec);
    try discriminate; try reflexivity; try lia; subst;
    destruct (Pos.compare_spec ma mb), (Pos.compare_spec mb mc), (Pos.compare_spec ma mc);
    simpl; try discriminate; try reflexivity; try lia.
Qed.

Lemma slider_position_listed z : -120 <= z <= -20 -> In z slider_positions.
Proof.
  intros Hz. unfold slider_positions. apply in_map_iff.
  exists (Z.to_nat (z + 120)). split; [lia|]. apply in_seq. lia.
Qed.

Lemma slider_threshold_finite z :
  -120 <= z <= -20 -> is_finite (b64_of_Z z) = true.
Proof.
  intros Hz. assert (Hall : slider_thresholds_ordered = true) by (vm_compute; reflexivity).
  unfold slider_thresholds_ordered in Hall. rewrite forallb_forall in Hall.
  specialize (Hall z (slider_position_listed z Hz)).
  apply andb_true_iff in Hall. tauto.
Qed.

Lemma slider_threshold_le lo hi :
  -120 <= lo <= -20 -> -120 <= hi <= -20 -> lo <= hi ->
  b64_le (b64_of_Z lo) (b64_of_Z hi) = true.
Proof.
  intros Hlo Hhi Hle.
  assert (Hall : slider_thresholds_ordered = true) by (vm_compute; reflexivity).
  unfold slider_thresholds_ordered in Hall. rewrite forallb_forall in Hall.
  specialize (Hall lo (slider_position_listed lo Hlo)).
  apply andb_true_iff in Hall. destruct Hall as [_ Hall].
  rewrite forallb_forall in Hall.
  specialize (Hall hi (slider_position_listed hi Hhi)).
  apply Z.leb_le in Hle. rewrite Hle in Hall. exact Hall.
Qed.

Lemma ssidQuery_same (c1 c2 : controls) : ssidq c1 = ssidq c2 -> ssidQuery c1 = ssidQuery c2.
Proof. unfold ssidQuery. intros ->. reflexivity. Qed.

Section Monotone.

Variable js_number_string : spec_float -> string.
Variables strict wide : controls.
Hypothesis strict_range : slider_in_range strict.
Hypothesis wide_range : slider_in_range wide.
Hypothesis types_widened : activeTypes strict ⊆ activeTypes wide.
Hypothesis threshold_lowered : minsig wide <= minsig strict.
Hypothesis same_query : ssidq wide = ssidq strict.

(** A record shown under the stricter controls is shown under the wider. *)
Lemma passesFilters_widen (it : item) :
  passesFilters js_number_string strict it = true ->
  passesFilters js_number_string wide it = true.
Proof.
  unfold passesFilters.
  rewrite (ssidQuery_same wide strict same_query).
  rewrite !slider_threshold_finite by assumption. simpl.
  destruct (bool_decide (it_type it ∈ activeTypes strict)) eqn:Hs; simpl; [|discriminate].
  apply bool_decide_eq_true in Hs.
  rewrite (bool_decide_eq_true_2 (it_type it ∈ activeTypes wide))
    by (apply types_widened, Hs).
  simpl.
  destruct (it_signal it) as [s|]; [|exact (fun H => H)].
  destruct (b64_lt s (b64_of_Z (minsig wide))) eqn:Hw;
    [|destruct (b64_lt s (b64_of_Z (minsig strict))); [discriminate|exact (fun H => H)]].
  rewrite (b64_lt_le_trans _ _ (b64_of_Z (minsig strict)) Hw)
    by (apply slider_threshold_le; assumption).
  discriminate.
Qed.

Lemma refresh_shown_widen (items : list item) (n m : nat) :
  (n <= m)%nat ->
  (refresh_shown js_number_string strict items n
   <= refresh_shown js_number_string wide items m)%nat.
Proof.
  revert n m. induction items as [|it rest IH]; intros n m Hnm; simpl; [exact Hnm|].
  apply IH.
  destruct (passesFilters js_number_string strict it) eqn:Hs.
  - rewrite (passesFilters_widen it Hs). lia.
  - destruct (passesFilters js_number_string wide it); lia.
Qed.

End Monotone.

(** C9. The filter is monotone.  Take two settings of the controls with
    the same query text and the slider within -120..-20, of which [wide] has
    at least the active types of [strict] and a threshold that is not
    higher.  Every record that passes under [strict] passes under [wide],
    and the count shown by [refresh] under [strict] is at most the count
    under [wide]: widening never lowers the count, narrowing never raises
    it. *)
Theorem passesFilters_monotone (js_number_string : spec_float -> string)
    (strict wide : controls) (items : list item) :
  slider_in_range strict -> slider_in_range wide ->
  activeTypes strict ⊆ activeTypes wide ->
  minsig wide <= minsig strict ->
  ssidq wide = ssidq strict ->
  (forall it, passesFilters js_number_string strict it = true ->
              passesFilters js_number_string wide it = true)
  /\ (refresh_shown js_number_string strict items 0
      <= refresh_shown js_number_string wide items 0)%nat.
Proof.
  intros Hs Hw Ht Hm Hq. split.
  - intros it. apply passesFilters_widen; assumption.
  - apply refresh_shown_widen; auto.
Qed.

(** Scenario 4: at threshold -60 the record at -65 dBm is not shown, after
    a reset it is, and the counts are ordered as the theorem says. *)
Lemma passesFilters_monotone_witness :
  passesFilters number_blank controls_threshold60 record_minus65 = false
  /\ passesFilters number_blank controls_reset record_minus65 = true
  /\ (refresh_shown number_blank controls_threshold60 [record_minus65] 0
      <= refresh_shown number_blank controls_reset [record_minus65] 0)%nat.
Proof.
  split; [vm_compute; reflexivity|]. split; [vm_compute; reflexivity|].
  apply (passesFilters_monotone number_blank controls_threshold60 controls_reset
           [record_minus65]).
  - unfold slider_in_range; simpl; lia.
  - unfold slider_in_range; simpl; lia.
  - apply (bool_decide_eq_true_1
             (activeTypes controls_threshold60 ⊆ activeTypes controls_reset)).
    vm_compute. reflexivity.
  - simpl; lia.
  - reflexivity.
Defined.

(** ** The signal extractor *)

Section Extractor.

Variable py_repr : pyval -> string.

Let coerce := coerce_float py_repr.

Lemma first_coerced_app (l1 l2 : list pyval) :
  first_coerced coerce (l1 ++ l2)
  = match first_coerced coerce l1 with
    | Ok None => first_coerced coerce l2
    | r => r
    end.
Proof.
  induction l1 as [|v rest IH]; simpl; [reflexivity|].
  destruct (coerce v) as [[x|]|e]; auto.
Qed.


Lemma first_coerced_nothing (l : list pyval) :
  (forall v, In v l -> coerce v = Ok None) -> first_coerced coerce l = Ok None.
Proof.
  induction l as [|v rest IH]; simpl; intros H; [reflexivity|].
  rewrite (H v) by now left. apply IH. intros w Hw. apply H. now right.
Qed.

(** The loop over the ranked keys tries the values of the present keys
    in rank order. *)
Lemma scan_signal_keys_first (keys : list string) (props : pydict) :
  scan_signal_keys py_repr keys props
  = first_coerced coerce (omap (fun k => dict_get k props) keys).
Proof.
  induction keys as [|key rest IH]; simpl; [reflexivity|].
  unfold dict_has. destruct (dict_get key props) as [v|]; simpl; [|exact IH].
  fold coerce. destruct (coerce v) as [[x|]|e]; simpl; auto.
Qed.

Lemma scan_nested_items_first (d : pydict) :
  scan_nested_items py_repr d
  = first_coerced coerce
      (map snd (filter (fun e => Is_true (names_signal (fst e))) d)).
Proof.
  induction d as [|[kk vv] rest IH]; [reflexivity|].
  rewrite filter_cons. cbn [scan_nested_items fst].
  destruct (names_signal kk); simpl.
  - fold coerce. destruct (coerce vv) as [[x|]|e]; simpl; auto.
  - exact IH.
Qed.

Lemma scan_nested_first (props : pydict) :
  scan_nested py_repr props = first_coerced coerce (nested_candidates props).
Proof.
  unfold nested_candidates.
  induction props as [|[k v] rest IH]; simpl; [reflexivity|].
  destruct v; simpl; try exact IH.
  rewrite first_coerced_app, <- scan_nested_items_first.
  destruct (scan_nested_items py_repr d) as [[x|]|e]; simpl; auto.
Qed.

Lemma extract_signal_dbm_first (props : pydict) :
  extract_signal_dbm py_repr props
  = first_coerced coerce (ranked_candidates props).
Proof.
  unfold extract_signal_dbm, ranked_candidates, flat_candidates.
  rewrite first_coerced_app, <- scan_signal_keys_first, <- scan_nested_first.
  destruct (scan_signal_keys py_repr SIGNAL_KEYS props) as [[x|]|e]; reflexivity.
Qed.

End Extractor.



(** ** The two numeric coercions compared *)

(** *** Characters *)

Ltac by_cases_on_char c :=
  destruct c as [[] [] [] [] [] [] [] []]; vm_compute; repeat split; congruence.

Lemma lower_char_idem c : lower_char (lower_char c) = lower_char c.
Proof. by_cases_on_char c. Qed.

Lemma lower_char_digit c : is_digit (lower_char c) = is_digit c.
Proof. by_cases_on_char c. Qed.

Lemma lower_char_float_space c : float_isspace (lower_char c) = float_isspace c.
Proof. by_cases_on_char c. Qed.


Lemma float_space_is_space c : float_isspace c = true -> py_isspace c = true.
Proof. by_cases_on_char c. Qed.

Lemma ascii_not_minus_byte c (t : string) :
  is_ascii c = true -> is_prefix uminus (String c t) = false.
Proof. by_cases_on_char c. Qed.

Lemma lower_char_punct c :
  Ascii.eqb (lower_char c) "_" = Ascii.eqb c "_"
  /\ Ascii.eqb (lower_char c) "-" = Ascii.eqb c "-"
  /\ Ascii.eqb (lower_char c) "+" = Ascii.eqb c "+"
  /\ Ascii.eqb (lower_char c) "." = Ascii.eqb c "."
  /\ Ascii.eqb (lower_char c) "," = Ascii.eqb c ",".
Proof. by_cases_on_char c. Qed.

Lemma space_not_special c :
  py_isspace c = true ->
  Ascii.eqb c "_" = false /\ is_digit c = false /\ Ascii.eqb c "," = false.
Proof. by_cases_on_char c. Qed.

Lemma letter_d_not_space c :
  Ascii.eqb (lower_char c) "d" = true -> py_isspace c = false.
Proof. by_cases_on_char c. Qed.

Lemma digit_not_comma c : is_digit c = true -> Ascii.eqb c "," = false.
Proof. by_cases_on_char c. Qed.

Lemma letter_e_not_comma c :
  Ascii.eqb (lower_char c) "e" = true -> Ascii.eqb c "," = false.
Proof. by_cases_on_char c. Qed.

Lemma decimal_point_lower c : decimal_point (lower_char c) = lower_char (decimal_point c).
Proof. by_cases_on_char c. Qed.

Lemma decimal_point_float_space c : float_isspace (decimal_point c) = float_isspace c.
Proof. by_cases_on_char c. Qed.

(** *** Strings *)

#[local] Arguments Ascii.eqb : simpl never.

Lemma append_cons c (r s : string) : String c r ++ s = String c (r ++ s).
Proof. reflexivity. Qed.

Lemma append_empty_l (s : string) : "" ++ s = s.
Proof. reflexivity. Qed.

Ltac push_append := rewrite ?append_cons, ?append_empty_l in *.

Lemma append_empty_r (s : string) : s ++ "" = s.
Proof. induction s as [|c r IH]; push_append; [reflexivity|f_equal; exact IH]. Qed.

Lemma append_assoc (a b c : string) : (a ++ b) ++ c = a ++ (b ++ c).
Proof. induction a as [|x a IH]; push_append; simpl; [reflexivity|f_equal; exact IH]. Qed.

Lemma smap_app f (a b : string) : smap f (a ++ b) = smap f a ++ smap f b.
Proof.
  induction a as [|x a IH]; push_append; simpl; push_append;
    [reflexivity|f_equal; exact IH].
Qed.

Lemma smap_smap_comm f g (s : string) :
  (forall c, f (g c) = g (f c)) -> smap f (smap g s) = smap g (smap f s).
Proof. intros H. induction s as [|x a IH]; simpl; [reflexivity|now rewrite IH, H]. Qed.

Lemma lower_app (a b : string) : lower (a ++ b) = lower a ++ lower b.
Proof. apply smap_app. Qed.

Lemma lower_idem (s : string) : lower (lower s) = lower s.
Proof.
  unfold lower. induction s as [|x a IH]; simpl; [reflexivity|].
  now rewrite IH, lower_char_idem.
Qed.

Lemma sall_app p (a b : string) : sall p (a ++ b) = sall p a && sall p b.
Proof.
  induction a as [|x a IH]; push_append; simpl; [reflexivity|].
  now rewrite IH, andb_assoc.
Qed.

Lemma sall_impl (p q : ascii -> bool) (s : string) :
  (forall c, p c = true -> q c = true) -> sall p s = true -> sall q s = true.
Proof.
  intros H. induction s as [|x a IH]; simpl; [reflexivity|].
  rewrite !andb_true_iff. intros [Hx Ha]. auto.
Qed.

Lemma sall_smap p f (s : string) : sall p (smap f s) = sall (fun c => p (f c)) s.
Proof. induction s as [|x a IH]; simpl; [reflexivity|now rewrite IH]. Qed.

Section Strip.

Variable sp : ascii -> bool.

Lemma lstrip_spaces (w : string) : sall sp w = true -> lstrip sp w = "".
Proof.
  induction w as [|x a IH]; simpl; [reflexivity|].
  rewrite andb_true_iff. intros [-> Ha]. auto.
Qed.

Lemma rstrip_spaces (w : string) : sall sp w = true -> rstrip sp w = "".
Proof.
  induction w as [|x a IH]; simpl; [reflexivity|].
  rewrite andb_true_iff. intros [-> Ha]. now rewrite IH.
Qed.

Lemma lstrip_empty_spaces (s : string) : lstrip sp s = "" -> sall sp s = true.
Proof.
  induction s as [|x a IH]; simpl; [reflexivity|].
  destruct (sp x); [auto|discriminate].
Qed.

Lemma rstrip_empty_spaces (s : string) : rstrip sp s = "" -> sall sp s = true.
Proof.
  induction s as [|x a IH]; simpl; [reflexivity|].
  destruct (rstrip sp a) eqn:Ha; [|discriminate].
  destruct (sp x); [auto|discriminate].
Qed.

(** What [rstrip] removes is a run of white space. *)
Lemma rstrip_split (s : string) :
  exists w, s = rstrip sp s ++ w /\ sall sp w = true.
Proof.
  induction s as [|x a (w & Hs & Hw)].
  - exists "". split; reflexivity.
  - simpl. destruct (rstrip sp a) as [|y r] eqn:Ha.
    + destruct (sp x) eqn:Hx.
      * exists (String x a). split; [reflexivity|].
        simpl. rewrite Hx. apply rstrip_empty_spaces, Ha.
      * exists w. split; [|exact Hw]. push_append. now rewrite <- Hs.
    + exists w. split; [|exact Hw]. rewrite append_cons. now rewrite <- Hs.
Qed.

Lemma rstrip_app_spaces (s w : string) :
  sall sp w = true -> rstrip sp (s ++ w) = rstrip sp s.
Proof.
  intros Hw. induction s as [|x a IH]; push_append; simpl.
  - apply rstrip_spaces, Hw.
  - now rewrite IH.
Qed.

Lemma lstrip_app_spaces (s w : string) :
  sall sp w = true ->
  lstrip sp (s ++ w) = match lstrip sp s with
                       | EmptyString => EmptyString
                       | t => t ++ w
                       end.
Proof.
  intros Hw. induction s as [|x a IH]; push_append; simpl.
  - apply lstrip_spaces, Hw.
  - destruct (sp x); [exact IH|reflexivity].
Qed.

Lemma strip_app_spaces (s w : string) :
  sall sp w = true -> strip sp (s ++ w) = strip sp s.
Proof.
  intros Hw. unfold strip. rewrite lstrip_app_spaces by exact Hw.
  destruct (lstrip sp s) as [|y r]; [reflexivity|].
  now rewrite (rstrip_app_spaces (String y r) w Hw).
Qed.

Lemma lstrip_smap f (s : string) :
  (forall c, sp (f c) = sp c) -> lstrip sp (smap f s) = smap f (lstrip sp s).
Proof.
  intros H. induction s as [|x a IH]; simpl; [reflexivity|].
  rewrite H. destruct (sp x); [exact IH|reflexivity].
Qed.

Lemma rstrip_smap f (s : string) :
  (forall c, sp (f c) = sp c) -> rstrip sp (smap f s) = smap f (rstrip sp s).
Proof.
  intros H. induction s as [|x a IH]; simpl; [reflexivity|].
  rewrite IH, H. destruct (rstrip sp a); simpl; [|reflexivity].
  destruct (sp x); reflexivity.
Qed.

Lemma strip_smap f (s : string) :
  (forall c, sp (f c) = sp c) -> strip sp (smap f s) = smap f (strip sp s).
Proof. intros H. unfold strip. now rewrite lstrip_smap, rstrip_smap. Qed.

(** Characters kept by stripping. *)
Lemma lstrip_sall q (s : string) :
  (forall c, sp c = true -> q c = true) ->
  sall q (lstrip sp s) = true -> sall q s = true.
Proof.
  intros H. induction s as [|x a IH]; simpl; [reflexivity|].
  destruct (sp x) eqn:Hx; simpl; [|tauto].
  intros Ha. rewrite (H x Hx). auto.
Qed.

Lemma rstrip_sall q (s : string) :
  (forall c, sp c = true -> q c = true) ->
  sall q (rstrip sp s) = true -> sall q s = true.
Proof.
  intros H Hq. destruct (rstrip_split s) as (w & Hs & Hw).
  rewrite Hs, sall_app, Hq. simpl. exact (sall_impl sp q w H Hw).
Qed.

End Strip.

(** *** Occurrences and replacement *)

Lemma starts_with_app (u x b r : string) :
  starts_with u x = Some r -> starts_with u (x ++ b) = Some (r ++ b).
Proof.
  revert x. induction u as [|a u IH]; intros x; simpl.
  - now intros [= ->].
  - destruct x as [|c x]; [discriminate|]. push_append. simpl.
    destruct (Ascii.eqb a c); [apply IH|discriminate].
Qed.

Lemma is_prefix_app (u x b : string) :
  is_prefix u x = true -> is_prefix u (x ++ b) = true.
Proof.
  unfold is_prefix. destruct (starts_with u x) as [r|] eqn:H; [|discriminate].
  now rewrite (starts_with_app u x b r H).
Qed.

Lemma contains_app_l (u a b : string) :
  contains u a = true -> contains u (a ++ b) = true.
Proof.
  induction a as [|c a IH]; simpl.
  - rewrite orb_false_r. intros H. apply (is_prefix_app u "" b) in H.
    push_append. destruct b; simpl; now rewrite H.
  - rewrite orb_true_iff. intros [H|H]; push_append; simpl.
    + apply (is_prefix_app u (String c a) b) in H. push_append. now rewrite H.
    + rewrite (IH H). apply orb_true_r.
Qed.

Lemma contains_lstrip sp (u s : string) :
  contains u (lstrip sp s) = true -> contains u s = true.
Proof.
  induction s as [|c s IH]; simpl; [tauto|].
  destruct (sp c); [|tauto]. intros H. rewrite (IH H). apply orb_true_r.
Qed.

Lemma contains_rstrip sp (u s : string) :
  contains u (rstrip sp s) = true -> contains u s = true.
Proof.
  intros H. destruct (rstrip_split sp s) as (w & Hs & _).
  rewrite Hs. apply contains_app_l, H.
Qed.

Lemma contains_strip_false sp (u s : string) :
  contains u s = false -> contains u (strip sp s) = false.
Proof.
  intros H. destruct (contains u (strip sp s)) eqn:Hc; [|reflexivity].
  apply contains_rstrip, contains_lstrip in Hc. congruence.
Qed.

Lemma replace_absent (old new s : string) :
  contains old s = false -> replace old new s = s.
Proof.
  unfold replace. induction s as [|c s IH]; simpl; [reflexivity|].
  rewrite orb_false_iff. intros [-> H]. now rewrite IH.
Qed.

Lemma replace_minus_id (s : string) : replace "-" "-" s = s.
Proof.
  unfold replace. induction s as [|c s IH]; simpl; [reflexivity|].
  unfold is_prefix. simpl. destruct (Ascii.eqb_spec "-"%char c) as [<-|_].
  - push_append. now rewrite IH.
  - now rewrite IH.
Qed.

Lemma replace_comma (s : string) : replace "," "." s = smap decimal_point s.
Proof.
  unfold replace. induction s as [|c s IH]; simpl; [reflexivity|].
  unfold is_prefix, decimal_point. simpl. rewrite (Ascii.eqb_sym c).
  destruct (Ascii.eqb ","%char c); push_append; now rewrite IH.
Qed.

Lemma replace_unit_lower (body : string) :
  sall not_letter_d body = true ->
  replace "dbm" "" (lower body ++ "dbm") = lower body.
Proof.
  unfold replace, lower. induction body as [|c b IH]; [reflexivity|].
  simpl. rewrite andb_true_iff. intros [Hc Hb].
  unfold not_letter_d in Hc. apply negb_true_iff in Hc.
  push_append. simpl. unfold is_prefix. simpl.
  rewrite (Ascii.eqb_sym "d"%char), Hc. now rewrite IH.
Qed.

Lemma replace_unit_absent (body : string) :
  sall not_letter_d body = true -> replace "dbm" "" (lower body) = lower body.
Proof.
  unfold replace, lower. induction body as [|c b IH]; [reflexivity|].
  simpl. rewrite andb_true_iff. intros [Hc Hb].
  unfold not_letter_d in Hc. apply negb_true_iff in Hc.
  unfold is_prefix. simpl.
  rewrite (Ascii.eqb_sym "d"%char), Hc. now rewrite IH.
Qed.

(** *** The unit pattern *)

Lemma re_sub_unit_eq (s : string) :
  re_sub_unit s
  = let l := lower (lstrip py_isspace s) in
    if str_in l ["db"; "dbm"] then ""
    else if str_in l ["db" ++ newline; "dbm" ++ newline] then newline
    else match s with
         | EmptyString => EmptyString
         | String c r => String c (re_sub_unit r)
         end.
Proof. destruct s; reflexivity. Qed.

Lemma sall_lstrip sp q (s : string) :
  sall q s = true -> sall q (lstrip sp s) = true.
Proof.
  induction s as [|c s IH]; simpl; [reflexivity|].
  rewrite andb_true_iff. intros [Hc Hs].
  destruct (sp c); [auto|]. simpl. now rewrite Hc, Hs.
Qed.

(** A text that does not begin with the letter d is none of the texts the
    pattern ends on. *)
Lemma not_unit_text (t : string) :
  sall not_letter_d t = true ->
  str_in (lower t) ["db"; "dbm"] = false
  /\ str_in (lower t) ["db" ++ newline; "dbm" ++ newline] = false.
Proof.
  destruct t as [|c t]; [split; reflexivity|].
  simpl. rewrite andb_true_iff. intros [Hc _].
  unfold not_letter_d in Hc. apply negb_true_iff in Hc.
  unfold str_in, lower. simpl. unfold newline. push_append. simpl.
  rewrite Hc. split; reflexivity.
Qed.

Lemma re_sub_unit_plain (x : string) :
  sall not_letter_d x = true -> re_sub_unit x = x.
Proof.
  induction x as [|c x IH]; [reflexivity|].
  intros H. rewrite re_sub_unit_eq. cbv zeta.
  destruct (not_unit_text (lstrip py_isspace (String c x))) as [-> ->].
  { apply sall_lstrip, H. }
  simpl in H. apply andb_true_iff in H. destruct H as [_ H]. now rewrite IH.
Qed.

Lemma lstrip_app_nonempty sp (s t : string) :
  lstrip sp s <> "" -> lstrip sp (s ++ t) = lstrip sp s ++ t.
Proof.
  induction s as [|c s IH]; simpl; [congruence|]. push_append. simpl.
  destruct (sp c); [exact IH|reflexivity].
Qed.

Lemma lstrip_spaces_app sp (w s : string) :
  sall sp w = true -> lstrip sp (w ++ s) = lstrip sp s.
Proof.
  induction w as [|c w IH]; simpl; [reflexivity|]. push_append. simpl.
  rewrite andb_true_iff. intros [-> Hw]. auto.
Qed.

(** The unit, in any letter case, is three letters and begins with no
    white space. *)
Lemma unit_shape (unit : string) :
  lower unit = "dbm" ->
  lstrip py_isspace unit = unit /\ str_in (lower unit) ["db"; "dbm"] = true.
Proof.
  intros H. split; [|rewrite H; reflexivity].
  destruct unit as [|u1 r]; [reflexivity|].
  unfold lower in H. simpl in H. injection H as H1 _.
  simpl. rewrite letter_d_not_space; [reflexivity|].
  rewrite H1. reflexivity.
Qed.

Lemma sall_append_left p (s t : string) :
  sall p (s ++ t) = true -> sall p s = true.
Proof. rewrite sall_app, andb_true_iff. tauto. Qed.

(** On a body without the letter d followed by the unit, the pattern
    removes the unit and the white space before it. *)
Lemma re_sub_unit_strips (x unit : string) :
  sall not_letter_d x = true -> lower unit = "dbm" ->
  re_sub_unit (x ++ unit) = rstrip py_isspace x.
Proof.
  intros Hx Hu. destruct (unit_shape unit Hu) as [Hl Hin].
  induction x as [|c x IH].
  - push_append. rewrite re_sub_unit_eq. cbv zeta. rewrite Hl, Hin. reflexivity.
  - rewrite re_sub_unit_eq. cbv zeta.
    destruct (sall py_isspace (String c x)) eqn:Hsp.
    + rewrite (lstrip_spaces_app py_isspace _ unit Hsp), Hl, Hin.
      now rewrite (rstrip_spaces py_isspace _ Hsp).
    + assert (Hne : lstrip py_isspace (String c x) <> "").
      { intros He. apply lstrip_empty_spaces in He. congruence. }
      rewrite (lstrip_app_nonempty py_isspace _ unit Hne).
      destruct (lstrip py_isspace (String c x)) as [|y r] eqn:Hy; [congruence|].
      assert (Hd : not_letter_d y = true).
      { pose proof (sall_lstrip py_isspace _ _ Hx) as Hs. rewrite Hy in Hs.
        simpl in Hs. apply andb_true_iff in Hs. tauto. }
      unfold not_letter_d in Hd. apply negb_true_iff in Hd.
      push_append. unfold str_in, lower, newline. simpl. push_append. simpl.
      rewrite Hd. simpl.
      simpl in Hx. apply andb_true_iff in Hx. destruct Hx as [_ Hx].
      rewrite (IH Hx).
      destruct (rstrip py_isspace x) eqn:Hr; [|reflexivity].
      apply rstrip_empty_spaces in Hr. simpl in Hsp. rewrite Hr, andb_true_r in Hsp.
      now rewrite Hsp.
Qed.

(** *** [float] and white space, letter case, commas *)

Lemma drop_underscores_spaces (w : string) (p : option ascii) :
  sall py_isspace w = true ->
  drop_underscores p w = if underscore_before p then None else Some w.
Proof.
  revert p. induction w as [|c w IH]; intros p; simpl; [reflexivity|].
  rewrite andb_true_iff. intros [Hc Hw].
  destruct (space_not_special c Hc) as (Hu & Hd & _).
  rewrite Hu, Hd, andb_true_r.
  destruct (underscore_before p); [reflexivity|].
  rewrite (IH (Some c) Hw). simpl. now rewrite Hu.
Qed.

Lemma drop_underscores_app_spaces (x w : string) (p : option ascii) :
  sall py_isspace w = true ->
  drop_underscores p (x ++ w) = (fun r => r ++ w) <$> drop_underscores p x.
Proof.
  intros Hw. revert p. induction x as [|c x IH]; intros p.
  - push_append. rewrite (drop_underscores_spaces w p Hw). simpl.
    destruct (underscore_before p); reflexivity.
  - push_append. simpl.
    destruct (Ascii.eqb c "_").
    + destruct (digit_before p); [apply IH|reflexivity].
    + destruct (underscore_before p && negb (is_digit c)); [reflexivity|].
      rewrite IH. destruct (drop_underscores (Some c) x); reflexivity.
Qed.

(** Trailing white space of the kind [float] skips does not change what
    it reads. *)
Lemma py_float_rstrip (t : string) : py_float (rstrip float_isspace t) = py_float t.
Proof.
  destruct (rstrip_split float_isspace t) as (w & Ht & Hw).
  rewrite Ht at 2. unfold py_float.
  rewrite (drop_underscores_app_spaces _ w None
             (sall_impl float_isspace py_isspace w float_space_is_space Hw)).
  destruct (drop_underscores None (rstrip float_isspace t)) as [r|]; simpl;
    [|reflexivity].
  now rewrite (strip_app_spaces float_isspace r w Hw).
Qed.

Lemma drop_underscores_lower (t : string) (p p' : option ascii) :
  underscore_before p' = underscore_before p ->
  digit_before p' = digit_before p ->
  drop_underscores p' (lower t) = lower <$> drop_underscores p t.
Proof.
  revert p p'. induction t as [|c t IH]; intros p p' Hu Hd; unfold lower; simpl.
  - rewrite Hu. destruct (underscore_before p); reflexivity.
  - destruct (lower_char_punct c) as (-> & _). rewrite lower_char_digit, Hu, Hd.
    assert (Hrec : drop_underscores (Some (lower_char c)) (lower t)
                   = lower <$> drop_underscores (Some c) t).
    { apply IH; simpl; [apply lower_char_punct|apply lower_char_digit]. }
    fold (lower t). rewrite Hrec.
    destruct (Ascii.eqb c "_"), (digit_before p), (underscore_before p), (is_digit c);
      simpl; try reflexivity;
      destruct (drop_underscores (Some c) t); reflexivity.
Qed.

Lemma digit_lower c : is_digit c = true -> lower_char c = c.
Proof. by_cases_on_char c. Qed.

Lemma span_digits_lower (s : string) :
  span_digits (lower s) = (fst (span_digits s), lower (snd (span_digits s))).
Proof.
  unfold lower. induction s as [|c s IH]; simpl; [reflexivity|].
  rewrite lower_char_digit. destruct (is_digit c) eqn:Hc; [|reflexivity].
  rewrite IH. destruct (span_digits s). simpl. now rewrite (digit_lower c Hc).
Qed.

Lemma split_sign_lower (s : string) :
  split_sign (lower s) = (fst (split_sign s), lower (snd (split_sign s))).
Proof.
  destruct s as [|c s]; [reflexivity|]. unfold lower. simpl.
  destruct (lower_char_punct c) as (_ & -> & -> & _).
  destruct (Ascii.eqb c "-"); [reflexivity|].
  destruct (Ascii.eqb c "+"); reflexivity.
Qed.

Lemma lower_empty (s : string) : lower s = "" -> s = "".
Proof. destruct s; [reflexivity|discriminate]. Qed.

Lemma parse_exponent_lower (s : string) :
  parse_exponent (lower s) = parse_exponent s.
Proof.
  destruct s as [|c s]; [reflexivity|]. unfold lower. simpl. fold (lower s).
  rewrite lower_char_idem. destruct (Ascii.eqb (lower_char c) "e"); [|reflexivity].
  rewrite split_sign_lower. destruct (split_sign s) as [eneg r1]. simpl.
  rewrite span_digits_lower. destruct (span_digits r1) as [ed r2]. simpl.
  destruct ed; [reflexivity|]. destruct r2; reflexivity.
Qed.

Lemma parse_decimal_lower (s : string) :
  parse_decimal (lower s) = parse_decimal s.
Proof.
  unfold parse_decimal. rewrite span_digits_lower.
  destruct (span_digits s) as [ip r1]. simpl.
  destruct r1 as [|c r1]; simpl.
  - reflexivity.
  - unfold lower. simpl. fold (lower r1).
    destruct (lower_char_punct c) as (_ & _ & _ & -> & _).
    destruct (Ascii.eqb c ".").
    + rewrite span_digits_lower. destruct (span_digits r1) as [fp r2]. simpl.
      rewrite parse_exponent_lower. reflexivity.
    + change (String (lower_char c) (lower r1)) with (lower (String c r1)).
      rewrite parse_exponent_lower. reflexivity.
Qed.

Lemma parse_float_literal_lower (s : string) :
  parse_float_literal (lower s) = parse_float_literal s.
Proof.
  unfold parse_float_literal. rewrite split_sign_lower.
  destruct (split_sign s) as [neg r]. simpl.
  now rewrite lower_idem, parse_decimal_lower.
Qed.

(** Letter case does not change what [float] reads. *)
Lemma py_float_lower (t : string) : py_float (lower t) = py_float t.
Proof.
  unfold py_float.
  rewrite (drop_underscores_lower t None None) by reflexivity.
  destruct (drop_underscores None t) as [r|]; simpl; [|reflexivity].
  unfold lower at 1. rewrite (strip_smap float_isspace lower_char r lower_char_float_space).
  apply parse_float_literal_lower.
Qed.

(** *** No text with a comma is the text of a float *)

Lemma span_digits_split (s : string) :
  s = fst (span_digits s) ++ snd (span_digits s)
  /\ sall is_digit (fst (span_digits s)) = true.
Proof.
  induction s as [|c s [IH1 IH2]]; simpl; [split; reflexivity|].
  destruct (is_digit c) eqn:Hc; [|split; reflexivity].
  destruct (span_digits s) as [d t]. simpl in *. push_append.
  split; [now rewrite <- IH1|now rewrite Hc, IH2].
Qed.

Lemma digits_no_comma (d : string) : sall is_digit d = true -> sall not_comma d = true.
Proof.
  apply sall_impl. intros c Hc. unfold not_comma. now rewrite (digit_not_comma c Hc).
Qed.

Lemma split_sign_no_comma (s : string) :
  sall not_comma (snd (split_sign s)) = true -> sall not_comma s = true.
Proof.
  destruct s as [|c s]; [reflexivity|]. simpl.
  destruct (Ascii.eqb_spec c "-") as [->|_]; [simpl; tauto|].
  destruct (Ascii.eqb_spec c "+") as [->|_]; [simpl; tauto|].
  simpl. tauto.
Qed.

Lemma parse_exponent_no_comma (s : string) (e : Z) :
  parse_exponent s = Some e -> sall not_comma s = true.
Proof.
  destruct s as [|c s]; [reflexivity|]. simpl.
  destruct (Ascii.eqb (lower_char c) "e") eqn:Hc; [|discriminate].
  unfold not_comma at 1. rewrite (letter_e_not_comma c Hc). simpl.
  intros H. apply split_sign_no_comma.
  destruct (split_sign s) as [eneg r1]. simpl.
  destruct (span_digits_split r1) as [Hr Hd].
  destruct (span_digits r1) as [ed r2]. simpl in *.
  destruct ed; [discriminate|]. destruct r2; [|discriminate].
  rewrite Hr, append_empty_r. apply digits_no_comma, Hd.
Qed.

Lemma parse_decimal_no_comma (s : string) (me : Z * Z) :
  parse_decimal s = Some me -> sall not_comma s = true.
Proof.
  unfold parse_decimal.
  destruct (span_digits_split s) as [Hs Hip].
  destruct (span_digits s) as [ip r1]. simpl in *.
  rewrite Hs, sall_app, (digits_no_comma ip Hip). simpl.
  destruct r1 as [|c r1].
  - reflexivity.
  - destruct (Ascii.eqb_spec c ".") as [->|_].
    + destruct (span_digits_split r1) as [Hr Hfp].
      destruct (span_digits r1) as [fp r2]. simpl in *.
      destruct (ip ++ fp); [discriminate|].
      destruct (parse_exponent r2) as [e|] eqn:He; [|discriminate].
      intros _. rewrite Hr, sall_app, (digits_no_comma fp Hfp).
      simpl. exact (parse_exponent_no_comma r2 e He).
    + destruct (ip ++ ""); [discriminate|].
      destruct (parse_exponent (String c r1)) as [e|] eqn:He; [|discriminate].
      intros _. exact (parse_exponent_no_comma _ e He).
Qed.

Lemma lower_no_comma (s : string) : sall not_comma (lower s) = sall not_comma s.
Proof.
  unfold lower. rewrite sall_smap. induction s as [|c s IH]; simpl; [reflexivity|].
  unfold not_comma at 1 3. destruct (lower_char_punct c) as (_ & _ & _ & _ & ->).
  now rewrite IH.
Qed.

Lemma parse_float_literal_no_comma (s : string) (x : spec_float) :
  parse_float_literal s = Some x -> sall not_comma s = true.
Proof.
  unfold parse_float_literal. intros H. apply split_sign_no_comma.
  destruct (split_sign s) as [neg r]. simpl.
  destruct (str_in (lower r) ["inf"; "infinity"]) eqn:Hinf.
  - rewrite <- lower_no_comma. unfold str_in in Hinf. simpl in Hinf.
    rewrite orb_false_r in Hinf. apply orb_true_iff in Hinf.
    destruct Hinf as [Hi|Hi]; apply String.eqb_eq in Hi; rewrite Hi; reflexivity.
  - destruct (String.eqb_spec (lower r) "nan") as [Hn|_].
    + rewrite <- lower_no_comma, Hn. reflexivity.
    + destruct (parse_decimal r) as [me|] eqn:Hd; [|discriminate].
      exact (parse_decimal_no_comma r me Hd).
Qed.

Lemma drop_underscores_sall q (t t' : string) (p : option ascii) :
  q "_"%char = true ->
  drop_underscores p t = Some t' -> sall q t' = true -> sall q t = true.
Proof.
  intros Hq. revert p t'. induction t as [|c t IH]; intros p t'; simpl; [reflexivity|].
  destruct (Ascii.eqb_spec c "_") as [->|_].
  - destruct (digit_before p); [|discriminate]. rewrite Hq. simpl. apply IH.
  - destruct (underscore_before p && negb (is_digit c)); [discriminate|].
    destruct (drop_underscores (Some c) t) as [r|] eqn:Hr; [|discriminate].
    simpl. intros [= <-]. simpl. rewrite !andb_true_iff. intros [Hc Hs].
    split; [exact Hc|]. exact (IH _ _ Hr Hs).
Qed.

Lemma py_float_no_comma (t : string) (x : spec_float) :
  py_float t = Some x -> sall not_comma t = true.
Proof.
  unfold py_float. destruct (drop_underscores None t) as [r|] eqn:Hr; [|discriminate].
  intros H. apply parse_float_literal_no_comma in H.
  apply (drop_underscores_sall not_comma t r None eq_refl Hr).
  assert (Hsp : forall c, float_isspace c = true -> not_comma c = true).
  { intros c Hc. apply float_space_is_space in Hc. unfold not_comma.
    now destruct (space_not_special c Hc) as (_ & _ & ->). }
  apply (lstrip_sall float_isspace _ _ Hsp), (rstrip_sall float_isspace _ _ Hsp), H.
Qed.

Lemma decimal_point_id (t : string) :
  sall not_comma t = true -> smap decimal_point t = t.
Proof.
  induction t as [|c t IH]; simpl; [reflexivity|].
  rewrite andb_true_iff. intros [Hc Ht]. unfold not_comma in Hc.
  apply negb_true_iff in Hc. unfold decimal_point at 1. now rewrite Hc, IH.
Qed.

(** [to_float] retries with the decimal comma replaced; a first attempt
    that succeeds had no comma to replace. *)
Lemma py_float_retry_comma (t : string) :
  match py_float t with
  | Some x => Some x
  | None => py_float (replace "," "." t)
  end = py_float (replace "," "." t).
Proof.
  destruct (py_float t) as [x|] eqn:H; [|reflexivity].
  now rewrite replace_comma, (decimal_point_id t (py_float_no_comma t x H)).
Qed.

(** *** The comparison *)

(** What [to_float] computes on a cell that holds a text. *)
Lemma to_float_reads (s : string) :
  to_float (Some s)
  = let c := replace "dbm" "" (lower (strip py_isspace s)) in
    if String.eqb c "nan" then None else py_float (replace "," "." c).
Proof.
  unfold to_float. rewrite replace_minus_id. cbv zeta.
  set (c := replace "dbm" "" (lower (strip py_isspace s))).
  rewrite py_float_retry_comma. unfold str_in. simpl.
  destruct (String.eqb_spec c "") as [->|_]; [reflexivity|].
  destruct (String.eqb_spec c "none") as [->|_]; [reflexivity|].
  simpl. destruct (String.eqb c "nan"); reflexivity.
Qed.

(** A text of the ASCII range holds no Unicode minus sign. *)
Lemma ascii_no_uminus (text : string) :
  sall is_ascii text = true -> contains uminus text = false.
Proof.
  induction text as [|c t IH]; [reflexivity|].
  intros H. simpl in H. apply andb_true_iff in H. destruct H as [Hc Ht].
  change (contains uminus (String c t))
    with (is_prefix uminus (String c t) || contains uminus t).
  now rewrite (ascii_not_minus_byte c t Hc), (IH Ht).
Qed.

(** C3, as amended.  On a cell without text both coercions answer [None].
    On a text of the ASCII range that, once trimmed, is a body without the
    letter d (and not the word nan) followed by nothing or by the unit dbm
    in any letter case, with no separator FS..US in the white space before
    the unit, [to_float] and [coerce_float] return the same optional
    float: both drop the unit and read a decimal comma as a decimal
    point. *)
Theorem to_float_agrees_with_coerce_float (py_repr : pyval -> string)
    (text body unit : string) :
  plain_reading text body unit ->
  Ok (to_float None) = coerce_float py_repr PNone
  /\ Ok (to_float (Some text)) = coerce_float py_repr (PStr text).
Proof.
  intros [Hascii Htrim Hbody Hunit Hgap Hnan]. split; [reflexivity|].
  rewrite to_float_reads. unfold coerce_float, py_str. cbv zeta.
  rewrite (replace_absent uminus "-" (strip py_isspace text))
    by (apply contains_strip_false, ascii_no_uminus, Hascii).
  rewrite Htrim, !replace_comma. f_equal.
  assert (Hread : py_float (smap decimal_point (lower body))
                  = py_float (smap decimal_point body)).
  { unfold lower. rewrite (smap_smap_comm decimal_point lower_char body decimal_point_lower).
    apply py_float_lower. }
  assert (Hnot : String.eqb (lower body) "nan" = false)
    by (apply String.eqb_neq, Hnan).
  destruct Hunit as [->|Hu].
  - rewrite append_empty_r, (replace_unit_absent body Hbody), Hnot.
    now rewrite (re_sub_unit_plain body Hbody).
  - rewrite lower_app, Hu, (replace_unit_lower body Hbody), Hnot.
    rewrite (re_sub_unit_strips body unit Hbody Hu), <- Hgap.
    rewrite <- (rstrip_smap float_isspace decimal_point body decimal_point_float_space).
    now rewrite py_float_rstrip.
Qed.

(** The reading " -67,5 dBm " is -67.5 for both. *)
Lemma to_float_agrees_with_coerce_float_witness :
  plain_reading reading_with_unit "-67,5 " "dBm"
  /\ to_float (Some reading_with_unit) = Some (b64_of_ratio true 135 2)
  /\ Ok (to_float (Some reading_with_unit))
     = coerce_float repr_blank (PStr reading_with_unit).
Proof.
  assert (H : plain_reading reading_with_unit "-67,5 " "dBm").
  { split; try reflexivity; [right; reflexivity|discriminate]. }
  split; [exact H|]. split; [vm_compute; reflexivity|].
  exact (proj2 (to_float_agrees_with_coerce_float repr_blank _ _ _ H)).
Defined.

(** C3 as stated fails: the two coercions differ on a Unicode minus sign
    (which [to_float] does not normalize), on the word nan, on the unit
    spelled db, on a unit that is not at the end, and on a separator
    before the unit (white space for the pattern of [coerce_float], not
    for the [float] that [to_float] leaves it to). *)
Lemma to_float_differs_from_coerce_float :
  (to_float (Some (uminus ++ "75 dBm")) = None
   /\ coerce_float repr_blank (PStr (uminus ++ "75 dBm")) = Ok (Some (b64_of_Z (-75))))
  /\ (to_float (Some "nan") = None
      /\ coerce_float repr_blank (PStr "nan") = Ok (Some S754_nan))
  /\ (to_float (Some "-67 db") = None
      /\ coerce_float repr_blank (PStr "-67 db") = Ok (Some (b64_of_Z (-67))))
  /\ (to_float (Some "dbm-67") = Some (b64_of_Z (-67))
      /\ coerce_float repr_blank (PStr "dbm-67") = Ok None)
  /\ (to_float (Some reading_with_separator) = None
      /\ coerce_float repr_blank (PStr reading_with_separator)
         = Ok (Some (b64_of_Z (-67)))).
Proof. repeat split; vm_compute; reflexivity. Qed.

(** * Further properties of the code *)

#[local] Arguments Ascii.eqb : simpl never.

(** ** CSV ingest: what is written *)

Lemma csv_loop_omap (rows : list csv_row) (features : list pyval) :
  csv_loop rows features = (features ++ omap csv_feature rows)%list.
Proof.
  revert features. induction rows as [|row rest IH]; intros features; simpl.
  - now rewrite app_nil_r.
  - destruct (csv_feature row) as [f|]; rewrite IH; [|reflexivity].
    now rewrite <- app_assoc.
Qed.

(** X1. The collection written holds the features of the rows that have
    one, in the order of the rows; the count printed is their number and
    is at most the number of rows. *)
Theorem csv_features_in_row_order (rows : list csv_row) :
  csv_to_geojson rows
  = (feature_collection (omap csv_feature rows), length (omap csv_feature rows))
  /\ (snd (csv_to_geojson rows) <= length rows)%nat.
Proof.
  unfold csv_to_geojson. rewrite csv_loop_omap. simpl. split; [reflexivity|].
  induction rows as [|row rest IH]; [simpl; lia|].
  change (omap csv_feature (row :: rest))
    with (match csv_feature row with
          | Some f => f :: omap csv_feature rest
          | None => omap csv_feature rest
          end).
  destruct (csv_feature row); simpl in *; lia.
Qed.

Lemma cell_truthy_some (cell : option string) :
  cell_truthy cell = true -> exists s, cell = Some s /\ s <> "".
Proof.
  destruct cell as [s|]; simpl; [|discriminate].
  intros H. exists s. split; [reflexivity|].
  apply negb_true_iff, String.eqb_neq in H. exact H.
Qed.

(** What the loop body does, by cases on the two coordinate cells. *)
Lemma csv_feature_cases (row : csv_row) :
  no_position row
  \/ exists s t lat lon,
       preferred_cell row "CurrentLatitude" "Latitude" = Some s
       /\ preferred_cell row "CurrentLongitude" "Longitude" = Some t
       /\ py_float s = Some lat /\ py_float t = Some lon
       /\ ~ (near_zero lat /\ near_zero lon)
       /\ csv_feature row
          = Some (point_feature lon lat
                    [ ("SSID", py_cell (row_get_default row "SSID" "hidden"));
                      ("BSSID", py_cell (row_get_default row "MAC" ""));
                      ("Channel", py_cell (row_get_default row "Channel" ""));
                      ("Signal", py_number (to_float (row_get row "RSSI")));
                      ("Encryption", py_cell (row_get_default row "AuthMode" "")) ]).
Proof.
  unfold csv_feature. rewrite !preferred_cell_or.
  destruct (cell_truthy (preferred_cell row "CurrentLatitude" "Latitude")) eqn:Hlat;
    [|left; now apply lat_missing].
  destruct (cell_truthy (preferred_cell row "CurrentLongitude" "Longitude")) eqn:Hlon;
    [|left; now apply lon_missing].
  destruct (cell_truthy_some _ Hlat) as (s & Hs & _).
  destruct (cell_truthy_some _ Hlon) as (t & Ht & _).
  rewrite Hs, Ht. simpl.
  destruct (py_float s) as [lat|] eqn:Hfs; [|left; now apply (lat_not_numeric row s)].
  destruct (py_float t) as [lon|] eqn:Hft; [|left; now apply (lon_not_numeric row t)].
  destruct (b64_lt (b64_abs lat) zero_tolerance) eqn:Hzlat;
    [destruct (b64_lt (b64_abs lon) zero_tolerance) eqn:Hzlon|]; simpl.
  - left. now apply (no_fix row s t lat lon).
  - right. exists s, t, lat, lon. repeat split; try assumption.
    unfold near_zero. intros [_ H]. congruence.
  - right. exists s, t, lat, lon. repeat split; try assumption.
    unfold near_zero. intros [H _]. congruence.
Qed.

(** X2. A row is passed over only for want of a position: when no feature
    is written for it, a coordinate cell is missing or blank, or is not the
    text of a float, or both coordinates are within 1e-4 of zero. *)
Theorem csv_row_skipped_only_without_position (row : csv_row) :
  csv_feature row = None -> no_position row.
Proof.
  intros H. destruct (csv_feature_cases row) as [Hno|(s & t & lat & lon & Hrest)];
    [exact Hno|].
  destruct Hrest as (_ & _ & _ & _ & _ & Hsome). congruence.
Qed.

Lemma csv_row_skipped_only_without_position_witness :
  csv_feature scenario2_row = None /\ no_position scenario2_row.
Proof.
  assert (H : csv_feature scenario2_row = None) by (vm_compute; reflexivity).
  split; [exact H|].
  exact (csv_row_skipped_only_without_position scenario2_row H).
Defined.

(** X3. A feature that is written is a Point at [lon, lat], the floats of
    the two coordinate cells read with preference for the Current fields
    and not both within 1e-4 of zero, and carries exactly the properties
    SSID, BSSID, Channel, Signal and Encryption: the cells SSID, MAC,
    Channel and AuthMode as they are, and Signal the coercion of RSSI. *)
Theorem csv_feature_written (row : csv_row) (f : pyval) :
  csv_feature row = Some f ->
  exists s t lat lon,
    preferred_cell row "CurrentLatitude" "Latitude" = Some s
    /\ preferred_cell row "CurrentLongitude" "Longitude" = Some t
    /\ py_float s = Some lat /\ py_float t = Some lon
    /\ ~ (near_zero lat /\ near_zero lon)
    /\ f = point_feature lon lat
             [ ("SSID", py_cell (row_get_default row "SSID" "hidden"));
               ("BSSID", py_cell (row_get_default row "MAC" ""));
               ("Channel", py_cell (row_get_default row "Channel" ""));
               ("Signal", py_number (to_float (row_get row "RSSI")));
               ("Encryption", py_cell (row_get_default row "AuthMode" "")) ].
Proof.
  intros H. destruct (csv_feature_cases row) as [Hno|(s & t & lat & lon & Hrest)].
  - rewrite (csv_feature_no_position row Hno) in H. discriminate.
  - destruct Hrest as (Hs & Ht & Hfs & Hft & Hz & Hsome).
    exists s, t, lat, lon. repeat split; try assumption. congruence.
Qed.

Lemma csv_feature_written_witness :
  csv_feature scenario1_row <> None
  /\ exists lon lat props, csv_feature scenario1_row = Some (point_feature lon lat props).
Proof.
  destruct (csv_feature scenario1_row) as [f|] eqn:H; [|vm_compute in H; discriminate].
  split; [discriminate|].
  destruct (csv_feature_written scenario1_row f H) as (s & t & lat & lon & Hrest).
  destruct Hrest as (_ & _ & _ & _ & _ & ->). eauto.
Defined.

Lemma non_finite_not_near_zero (x : spec_float) :
  is_finite x = false -> b64_lt (b64_abs x) zero_tolerance = false.
Proof. destruct x as [| [] | |]; simpl; try discriminate; reflexivity. Qed.

Lemma py_float_not_blank (s : string) (x : spec_float) : py_float s = Some x -> s <> "".
Proof. intros H ->. vm_compute in H. discriminate. Qed.

(** X4. A coordinate that [float] reads as NaN or as an infinity does not
    stop the row: when both cells are the text of a float and one of the
    two floats is not finite, the feature is written with that
    coordinate. *)
Theorem csv_non_finite_coordinate_written (row : csv_row) (s t : string)
    (lat lon : spec_float) :
  preferred_cell row "CurrentLatitude" "Latitude" = Some s ->
  preferred_cell row "CurrentLongitude" "Longitude" = Some t ->
  py_float s = Some lat -> py_float t = Some lon ->
  is_finite lat = false \/ is_finite lon = false ->
  exists props, csv_feature row = Some (point_feature lon lat props).
Proof.
  intros Hs Ht Hlat Hlon Hinf.
  destruct (csv_feature_cases row) as [Hno|(s' & t' & lat' & lon' & Hrest)].
  - exfalso.
    destruct Hno as [H|H|s' Hs' Hf|t' Ht' Hf|s' t' lat' lon' Hs' Ht' Hlat' Hlon' Hz1 Hz2].
    + rewrite Hs in H. simpl in H. apply negb_false_iff, String.eqb_eq in H.
      exact (py_float_not_blank s lat Hlat H).
    + rewrite Ht in H. simpl in H. apply negb_false_iff, String.eqb_eq in H.
      exact (py_float_not_blank t lon Hlon H).
    + congruence.
    + congruence.
    + assert (lat' = lat) by congruence. assert (lon' = lon) by congruence. subst.
      unfold near_zero in Hz1, Hz2.
      destruct Hinf as [H|H]; apply non_finite_not_near_zero in H; congruence.
  - destruct Hrest as (Hs' & Ht' & Hlat' & Hlon' & _ & Hsome).
    assert (lat' = lat) by congruence. assert (lon' = lon) by congruence. subst.
    eauto.
Qed.

Lemma csv_non_finite_coordinate_written_witness :
  exists props,
    csv_feature row_nan_latitude = Some (point_feature (b64_of_Z 19) S754_nan props).
Proof.
  apply (csv_non_finite_coordinate_written row_nan_latitude "nan" "19.0");
    try (vm_compute; reflexivity).
  left. reflexivity.
Defined.

(** ** netxml ingest: what is returned *)

Lemma rstrip_idem sp (s : string) : rstrip sp (rstrip sp s) = rstrip sp s.
Proof.
  induction s as [|c r IH]; simpl; [reflexivity|].
  destruct (rstrip sp r) as [|y r'] eqn:Hr.
  - destruct (sp c) eqn:Hc; simpl; [reflexivity|now rewrite Hc].
  - simpl in IH |- *. now rewrite IH.
Qed.

Lemma lstrip_does_nothing sp (s : string) :
  match s with String c _ => sp c = false | EmptyString => True end ->
  lstrip sp s = s.
Proof. destruct s as [|c r]; simpl; [reflexivity|]. now intros ->. Qed.

Lemma lstrip_head sp (s : string) :
  match lstrip sp s with String c _ => sp c = false | EmptyString => True end.
Proof.
  induction s as [|c r IH]; simpl; [exact I|].
  destruct (sp c) eqn:Hc; [exact IH|exact Hc].
Qed.

Lemma rstrip_head sp (s : string) :
  match s with String c _ => sp c = false | EmptyString => True end ->
  match rstrip sp s with String c _ => sp c = false | EmptyString => True end.
Proof.
  destruct s as [|c r]; simpl; [tauto|]. intros Hc.
  destruct (rstrip sp r); [now rewrite Hc|exact Hc].
Qed.

(** Stripping twice is stripping once. *)
Lemma strip_idem sp (s : string) : strip sp (strip sp s) = strip sp s.
Proof.
  unfold strip.
  rewrite (lstrip_does_nothing sp (rstrip sp (lstrip sp s)))
    by (apply rstrip_head, lstrip_head).
  apply rstrip_idem.
Qed.

Lemma upper_char_idem c : upper_char (upper_char c) = upper_char c.
Proof. by_cases_on_char c. Qed.

Lemma upper_idem (s : string) : upper (upper s) = upper s.
Proof.
  unfold upper. induction s as [|c r IH]; simpl; [reflexivity|].
  now rewrite IH, upper_char_idem.
Qed.

Lemma or_else_filled (s d : string) : d <> "" -> or_else s d <> "".
Proof.
  unfold or_else. intros Hd. destruct (String.eqb_spec s ""); assumption.
Qed.

(** X5. Whenever the loop body returns for a record, it has appended one
    row [SSID, BSSID, Encryption, Channel, Latitude, Longitude, Signal]
    in which the SSID is never blank and carries no surrounding white
    space, the BSSID is never blank and the encryption is in upper case;
    and it has appended nothing else, or one Point feature whose
    properties repeat the SSID, BSSID, Encryption, Channel and Signal of
    that row. *)
Theorem parse_network_row (net : element) (rows rows' : list (list pyval))
    (features features' : list pyval) :
  parse_network net (rows, features) = Ok (rows', features') ->
  exists ssid bssid enc chan lat lon rssi,
    rows' = (rows ++ [[PStr ssid; PStr bssid; PStr enc; chan; lat; lon; rssi]])%list
    /\ ssid <> "" /\ strip py_isspace ssid = ssid
    /\ bssid <> "" /\ upper enc = enc
    /\ (features' = features
        \/ exists flon flat,
             features'
             = (features ++
                [point_feature flon flat
                   [ ("SSID", PStr ssid); ("BSSID", PStr bssid);
                     ("Encryption", PStr enc); ("Channel", chan);
                     ("Signal", rssi) ]])%list).
Proof.
  unfold parse_network.
  destruct (match find ["SSID"; "essid"] net with
            | Some el => el_text el | None => Some "hidden" end) as [stext|];
    [|discriminate].
  destruct (match find ["SSID"; "encryption"] net with
            | Some el => el_text el | None => Some "unknown" end) as [etext|];
    [|discriminate].
  cbn [on_text mbind res_bind].
  set (ssid := or_else (strip py_isspace stext) "hidden").
  set (bssid := or_else (default "" (dict_get "BSSID" (el_attrib net))) "unknown").
  intros H.
  exists ssid, bssid, (upper etext).
  assert (Hssid : ssid <> "") by (apply or_else_filled; discriminate).
  assert (Hstrip : strip py_isspace ssid = ssid).
  { unfold ssid, or_else. destruct (String.eqb (strip py_isspace stext) "");
      [reflexivity|apply strip_idem]. }
  assert (Hbssid : bssid <> "") by (apply or_else_filled; discriminate).
  destruct (cell_truthy _ && cell_truthy _);
    [destruct (py_float _); [destruct (py_float _)|]|];
    injection H as <- <-; do 4 eexists;
    (split; [reflexivity|]);
    repeat (split; [assumption || apply upper_idem|]);
    solve [left; reflexivity | right; do 2 eexists; reflexivity].
Qed.

Lemma parse_network_row_witness :
  exists rows' features' ssid bssid enc chan lat lon rssi,
    parse_network network_bad_position ([], []) = Ok (rows', features')
    /\ rows' = [[PStr ssid; PStr bssid; PStr enc; chan; lat; lon; rssi]]
    /\ ssid <> "" /\ bssid <> "" /\ upper enc = enc.
Proof.
  destruct (parse_network network_bad_position ([], [])) as [[rows' features']|e] eqn:H;
    [|vm_compute in H; discriminate].
  destruct (parse_network_row network_bad_position [] rows' [] features' H)
    as (ssid & bssid & enc & chan & lat & lon & rssi & Hrows & Hs & _ & Hb & He & _).
  exists rows', features', ssid, bssid, enc, chan, lat, lon, rssi.
  repeat split; assumption.
Defined.

Lemma located_has_position (net : element) :
  located net = true <-> has_position net.
Proof.
  unfold located, has_position. split.
  - destruct (text_at ["gps-info"; "avg-lat"] net) as [lat|]; [|discriminate].
    destruct (text_at ["gps-info"; "avg-lon"] net) as [lon|]; [|discriminate].
    rewrite !andb_true_iff, !negb_true_iff, !bool_decide_eq_true.
    intros [[[Hlat Hlon] [x Hx]] [y Hy]].
    apply String.eqb_neq in Hlat, Hlon.
    exists lat, lon, x, y. repeat split; assumption.
  - intros (lat & lon & x & y & -> & Hlat & -> & Hlon & Hx & Hy).
    apply String.eqb_neq in Hlat, Hlon. rewrite Hlat, Hlon, Hx, Hy. reflexivity.
Qed.

Lemma parse_networks_counts (nets : list element) (rows features : list pyval)
    (rows0 : list (list pyval)) :
  Forall texts_present nets ->
  exists rows' features',
    parse_networks nets (rows0, features)
    = Ok ((rows0 ++ rows')%list, (features ++ features')%list)
    /\ length rows' = length nets
    /\ length features' = length (List.filter located nets).
Proof.
  intros H. revert rows0 features.
  induction H as [|net rest [Hs He] _ IH]; intros rows0 features.
  - exists [], []. rewrite !app_nil_r. repeat split; reflexivity.
  - cbn [parse_networks List.filter].
    destruct (parse_network_texts_present net rows0 features Hs He)
      as [row [[Hpos [feature ->]]|[Hpos ->]]]; cbn [mbind res_bind].
    + apply located_has_position in Hpos. rewrite Hpos.
      destruct (IH (rows0 ++ [row])%list (features ++ [feature])%list)
        as (rows' & features' & -> & Hr & Hf).
      exists (row :: rows'), (feature :: features').
      rewrite <- !app_assoc. simpl. repeat split; congruence.
    + assert (Hloc : located net = false).
      { destruct (located net) eqn:Hl; [|reflexivity].
        apply located_has_position in Hl. contradiction. }
      rewrite Hloc.
      destruct (IH (rows0 ++ [row])%list features)
        as (rows' & features' & -> & Hr & Hf).
      exists (row :: rows'), features'.
      rewrite <- !app_assoc. simpl. repeat split; congruence.
Qed.

(** X6. For a document in which every [essid] and [encryption] element
    carries text, [parse_netxml] returns: one row for each
    wireless-network record, whether or not it has coordinates, and one
    feature for each record whose two average coordinates are present,
    non-empty and the text of a float.  A record with unreadable
    coordinates costs its own feature only. *)
Theorem parse_netxml_rows_and_features (root : element) :
  Forall texts_present (findall ["wireless-network"] root) ->
  exists rows features,
    parse_netxml root = Ok (rows, feature_collection features)
    /\ length rows = length (findall ["wireless-network"] root)
    /\ length features
       = length (List.filter located (findall ["wireless-network"] root)).
Proof.
  intros H. unfold parse_netxml.
  destruct (parse_networks_counts _ [] [] [] H) as (rows & features & -> & Hr & Hf).
  exists rows, features. repeat split; assumption.
Qed.

Lemma texts_present_sample :
  Forall texts_present (findall ["wireless-network"] netxml_texts_sample).
Proof.
  repeat constructor;
    intros (el & Hf & Ht); vm_compute in Hf; try discriminate;
    injection Hf as <-; discriminate.
Defined.

(** Three records, the second with the latitude "n/a": three rows, two
    features. *)
Lemma parse_netxml_rows_and_features_witness :
  exists rows features,
    parse_netxml netxml_texts_sample = Ok (rows, feature_collection features)
    /\ length rows = 3%nat /\ length features = 2%nat.
Proof.
  exact (parse_netxml_rows_and_features netxml_texts_sample texts_present_sample).
Defined.

(** ** [make_map.py]: the Python helpers *)

(** X7. [coerce_float] raises in one case only: an [int] so large that its
    nearest float would be an infinity, and the exception then is
    [OverflowError].  On [None], a bool, a float, a text or a container it
    returns. *)
Theorem coerce_float_raises_only_on_big_int (py_repr : pyval -> string)
    (val : pyval) (e : exn) :
  coerce_float py_repr val = Raise e ->
  e = OverflowError
  /\ exists z, val = PInt z /\ is_finite (b64_of_Z z) = false.
Proof.
  destruct val as [|b|z|f|s|l|d]; simpl; try discriminate.
  - destruct b; vm_compute; discriminate.
  - unfold float_of_int. destruct (is_finite (b64_of_Z z)) eqn:Hz; simpl;
      [discriminate|].
    intros [= <-]. split; [reflexivity|]. exists z. split; [reflexivity|exact Hz].
Qed.

Lemma coerce_float_raises_only_on_big_int_witness :
  coerce_float repr_blank (PInt (10 ^ 400)) = Raise OverflowError
  /\ is_finite (b64_of_Z (10 ^ 400)) = false.
Proof.
  assert (H : coerce_float repr_blank (PInt (10 ^ 400)) = Raise OverflowError)
    by (vm_compute; reflexivity).
  split; [exact H|].
  destruct (coerce_float_raises_only_on_big_int repr_blank _ _ H) as (_ & z & Hz & Hfin).
  injection Hz as <-. exact Hfin.
Defined.

Section BestKey.

Variable py_repr : pyval -> string.

Lemma first_coerced_skip (l1 l2 : list pyval) :
  (forall v, In v l1 -> coerce_float py_repr v = Ok None) ->
  first_coerced (coerce_float py_repr) (l1 ++ l2)
  = first_coerced (coerce_float py_repr) l2.
Proof.
  intros H. rewrite first_coerced_app, (first_coerced_nothing py_repr l1 H). reflexivity.
Qed.

End BestKey.

(** X8. The best ranked key that does not coerce to [None] decides.  If
    every key ranked above [key] is absent or coerces to [None], and [key]
    is present with a value whose coercion is a number or an exception,
    then [extract_signal_dbm] gives that number, or raises that exception,
    whatever the lower ranked keys and the nested mappings hold. *)
Theorem extract_signal_dbm_best_key (py_repr : pyval -> string) (props : pydict)
    (above below : list string) (key : string) (v : pyval) :
  SIGNAL_KEYS = (above ++ key :: below)%list ->
  (forall k w, In k above -> dict_get k props = Some w ->
               coerce_float py_repr w = Ok None) ->
  dict_get key props = Some v ->
  coerce_float py_repr v <> Ok None ->
  extract_signal_dbm py_repr props = coerce_float py_repr v.
Proof.
  intros Hkeys Habove Hkey Hv.
  rewrite extract_signal_dbm_first. unfold ranked_candidates, flat_candidates.
  rewrite Hkeys, omap_app, <- app_assoc, first_coerced_skip.
  - change (omap (fun k => dict_get k props) (key :: below))
      with (match dict_get key props with
            | Some y => y :: omap (fun k => dict_get k props) below
            | None => omap (fun k => dict_get k props) below
            end).
    rewrite Hkey. simpl.
    destruct (coerce_float py_repr v) as [[x|]|e]; [reflexivity|congruence|reflexivity].
  - intros w Hw. apply list_elem_of_In, list_elem_of_omap in Hw.
    destruct Hw as (k & Hk & Hget). apply list_elem_of_In in Hk. eauto.
Qed.

(** A too large integer under the best key makes the call raise, although
    a lower ranked key holds a good reading. *)
Lemma extract_signal_dbm_best_key_witness :
  extract_signal_dbm repr_blank
    [("signal", PStr "-70"); ("Signal dBm", PInt (10 ^ 400))]
  = Raise OverflowError.
Proof.
  rewrite (extract_signal_dbm_best_key repr_blank _ [] (tl SIGNAL_KEYS) "Signal dBm"
             (PInt (10 ^ 400))).
  - vm_compute. reflexivity.
  - reflexivity.
  - intros k w [].
  - reflexivity.
  - vm_compute. discriminate.
Defined.

Lemma contains_app_r (u a b : string) :
  contains u b = true -> contains u (a ++ b) = true.
Proof.
  intros H. induction a as [|c a IH]; push_append; [exact H|].
  simpl. rewrite IH. apply orb_true_r.
Qed.

Lemma contains_join (u sep x : string) (l : list string) :
  In x l -> contains u x = true -> contains u (join sep l) = true.
Proof.
  intros Hin Hx. induction l as [|y r IH]; [destruct Hin|].
  simpl. destruct r as [|z r'].
  - destruct Hin as [->|[]]. exact Hx.
  - destruct Hin as [->|Hin].
    + apply contains_app_l, Hx.
    + apply contains_app_r, contains_app_r, IH, Hin.
Qed.

Lemma lower_join (sep : string) (l : list string) :
  lower (join sep l) = join (lower sep) (map lower l).
Proof.
  induction l as [|y r IH]; [reflexivity|].
  simpl. destruct r as [|z r']; [reflexivity|].
  rewrite !lower_app. now rewrite IH.
Qed.

(** The text [infer_type] searches holds the lower-cased text of every
    type-ish field. *)
Lemma infer_type_text_holds (py_repr : pyval -> string) (props : pydict)
    (k u : string) (v : pyval) :
  In k TYPE_KEYS -> dict_get k props = Some v ->
  contains u (lower (py_str py_repr v)) = true ->
  contains u (lower (join " " (map (fun k => py_str py_repr
                                               (default (PStr "") (dict_get k props)))
                                   TYPE_KEYS))) = true.
Proof.
  intros Hk Hget Hu. rewrite lower_join.
  apply (contains_join u _ (lower (py_str py_repr v))); [|exact Hu].
  apply in_map, in_map_iff. exists k. split; [|exact Hk]. now rewrite Hget.
Qed.

(** ** The device-type classifier *)






(** X9. In [infer_type] the word bridge wins: when the text of any
    type-ish field contains "bridge" in any letter case, the result is
    "bridge", whatever the other fields say. *)
Theorem infer_type_bridge_first (py_repr : pyval -> string) (props : pydict)
    (k : string) (v : pyval) :
  In k TYPE_KEYS -> dict_get k props = Some v ->
  contains "bridge" (lower (py_str py_repr v)) = true ->
  infer_type py_repr props = "bridge".
Proof.
  intros Hk Hget Hu. unfold infer_type.
  cbn [existsb]. rewrite (infer_type_text_holds py_repr props k "bridge" v Hk Hget Hu).
  reflexivity.
Qed.

Lemma infer_type_bridge_first_witness :
  infer_type repr_blank [("Type", PStr "client"); ("typename", PStr "Wi-Fi Bridged")]
  = "bridge".
Proof.
  apply (infer_type_bridge_first repr_blank _ "typename" (PStr "Wi-Fi Bridged"));
    [vm_compute; tauto|reflexivity|reflexivity].
Defined.

Lemma laptop_holds_ap (t : string) :
  contains "laptop" t = true -> contains "ap" t = true.
Proof.
  induction t as [|c t IH]; simpl; [discriminate|].
  rewrite orb_true_iff. intros [H|H].
  - unfold is_prefix in H. simpl in H.
    destruct (Ascii.eqb "l" c); [|discriminate].
    destruct t as [|c1 [|c2 t']]; simpl in H; try discriminate;
      destruct (Ascii.eqb "a" c1) eqn:H1; try discriminate.
    destruct (Ascii.eqb "p" c2) eqn:H2; try discriminate.
    simpl. unfold is_prefix at 2. simpl. rewrite H1, H2. simpl.
    apply orb_true_r.
  - rewrite (IH H). apply orb_true_r.
Qed.

(** X10. In [infer_type] the client word "laptop" can never decide: a
    type-ish field whose text contains "laptop" contains "ap", which is
    tried before, so the result is "ap" (or "bridge"), never "client". *)
Theorem infer_type_laptop_is_ap (py_repr : pyval -> string) (props : pydict)
    (k : string) (v : pyval) :
  In k TYPE_KEYS -> dict_get k props = Some v ->
  contains "laptop" (lower (py_str py_repr v)) = true ->
  infer_type py_repr props = "ap" \/ infer_type py_repr props = "bridge".
Proof.
  intros Hk Hget Hu. apply laptop_holds_ap in Hu. unfold infer_type.
  destruct (existsb _ ["bridge"; "bridged"]); [right; reflexivity|].
  left. cbn [existsb].
  rewrite (infer_type_text_holds py_repr props k "ap" v Hk Hget Hu). reflexivity.
Qed.

Lemma infer_type_laptop_is_ap_witness :
  infer_type repr_blank [("device_type", PStr "Laptop")] = "ap".
Proof.
  destruct (infer_type_laptop_is_ap repr_blank [("device_type", PStr "Laptop")]
              "device_type" (PStr "Laptop")) as [H|H];
    [vm_compute; tauto|reflexivity|reflexivity|exact H|].
  vm_compute in H. discriminate.
Defined.

(** ** [make_map.py]: the check of the loaded document *)

Lemma dict_get_set_same {V : Type} (k : string) (v : V) (d : list (string * V)) :
  dict_get k (dict_set k v d) = Some v.
Proof.
  induction d as [|[k' v'] r IH]; simpl.
  - now rewrite String.eqb_refl.
  - destruct (String.eqb k k') eqn:Hk; simpl; rewrite ?String.eqb_refl, ?Hk; auto.
Qed.

Lemma dict_get_set_other {V : Type} (k k0 : string) (v : V) (d : list (string * V)) :
  k0 <> k -> dict_get k0 (dict_set k v d) = dict_get k0 d.
Proof.
  intros Hne. apply String.eqb_neq in Hne.
  induction d as [|[k' v'] r IH]; simpl.
  - now rewrite Hne.
  - destruct (String.eqb_spec k k') as [<-|Hk]; simpl.
    + now rewrite Hne.
    + now rewrite IH.
Qed.

(** X11. The document check of [main] hands on a dict whose [type] is
    "FeatureCollection" and whose other keys are those of the loaded
    document with their values: a document that says so already goes
    through as it is, one that only has a [features] key is relabelled.
    [ValueError] is raised exactly for a dict that has neither, and a
    document that is not a dict fails on [geo.get] before the
    [isinstance] test is reached. *)
Theorem ensure_feature_collection_result (geo : pyval) :
  (forall geo', ensure_feature_collection geo = inr geo' ->
     exists d d',
       geo = PDict d /\ geo' = PDict d'
       /\ dict_get "type" d' = Some (PStr "FeatureCollection")
       /\ (forall k, k <> "type" -> dict_get k d' = dict_get k d)
       /\ (dict_get "type" d = Some (PStr "FeatureCollection") -> d' = d))
  /\ (ensure_feature_collection geo = inl MainValueError <->
      exists d, geo = PDict d
                /\ dict_get "type" d <> Some (PStr "FeatureCollection")
                /\ dict_get "features" d = None)
  /\ (ensure_feature_collection geo = inl MainAttributeError <->
      forall d, geo <> PDict d).
Proof.
  assert (Hdecl : forall d,
             match dict_get "type" d with
             | Some (PStr t) => String.eqb t "FeatureCollection"
             | _ => false
             end = true
             <-> dict_get "type" d = Some (PStr "FeatureCollection")).
  { intros d. destruct (dict_get "type" d) as [[| | | |t| |]|]; split;
      try discriminate; try (intros [=]; fail).
    - intros H. apply String.eqb_eq in H. now subst.
    - intros [= ->]. apply String.eqb_refl. }
  destruct geo as [|b|z|f|s|l|d]; simpl;
    try (split; [discriminate|split; [split; [discriminate|intros (d & H & _); discriminate]
                                     |split; [discriminate|reflexivity]]]).
  specialize (Hdecl d).
  destruct (match dict_get "type" d with
            | Some (PStr t) => String.eqb t "FeatureCollection"
            | _ => false
            end) eqn:Hd.
  - assert (Ht : dict_get "type" d = Some (PStr "FeatureCollection")) by (now apply Hdecl).
    split; [|split].
    + intros geo' [= <-]. exists d, d. repeat split; auto.
    + split; [discriminate|]. intros (d0 & [= <-] & Hne & _). contradiction.
    + split; [discriminate|]. intros H. exfalso. now apply (H d).
  - assert (Ht : dict_get "type" d <> Some (PStr "FeatureCollection")).
    { intros H. apply Hdecl in H. discriminate. }
    unfold dict_has. destruct (dict_get "features" d) as [fs|] eqn:Hf.
    + split; [|split].
      * intros geo' [= <-]. eexists d, _. split; [reflexivity|]. split; [reflexivity|].
        split; [apply dict_get_set_same|]. split.
        -- intros k Hk. now apply dict_get_set_other.
        -- intros H. contradiction.
      * split; [discriminate|]. intros (d0 & [= <-] & _ & H). congruence.
      * split; [discriminate|]. intros H. exfalso. now apply (H d).
    + split; [|split].
      * discriminate.
      * split; [|reflexivity]. intros _. exists d. auto.
      * split; [discriminate|]. intros H. exfalso. now apply (H d).
Qed.

(** A document with a [features] list and no [type] is relabelled. *)
Lemma ensure_feature_collection_result_witness :
  exists d',
    ensure_feature_collection (PDict [("features", PList [])]) = inr (PDict d')
    /\ dict_get "type" d' = Some (PStr "FeatureCollection")
    /\ dict_get "features" d' = Some (PList []).
Proof.
  destruct (ensure_feature_collection (PDict [("features", PList [])])) as [e|geo'] eqn:H;
    [vm_compute in H; discriminate|].
  destruct (proj1 (ensure_feature_collection_result _) geo' H)
    as (d & d' & [= <-] & -> & Ht & Hk & _).
  exists d'. split; [reflexivity|]. split; [exact Ht|].
  rewrite Hk by discriminate. reflexivity.
Defined.

(** ** The page: categories and colours *)

Lemma inferType_category (js_number_string : spec_float -> string) (props : jsobj) :
  In (inferType js_number_string props) ["client"; "ap"; "bridge"; "unknown"].
Proof. unfold inferType. repeat case_match; simpl; tauto. Qed.

(** X12. [inferType] answers one of the four keys of [TYPE_COLORS], so in
    type mode [markerStyle] colours a marker with the palette entry of its
    own category and never needs the fallback to the colour of unknown. *)
Theorem markerStyle_type_palette (js_number_string : spec_float -> string)
    (props : jsobj) (signal : option spec_float) :
  In (inferType js_number_string props) ["client"; "ap"; "bridge"; "unknown"]
  /\ dict_get (inferType js_number_string props) TYPE_COLORS
     = Some (markerStyle "type" (Item props signal (inferType js_number_string props))).
Proof.
  pose proof (inferType_category js_number_string props) as H.
  split; [exact H|]. unfold markerStyle. simpl.
  destruct H as [<-|[<-|[<-|[<-|[]]]]]; reflexivity.
Qed.

(** X13. The colour and the legend bucket of a signal always name the same
    class: green with "≥ -60 dBm", amber with "-75 to -60 dBm", red with
    "< -75 dBm" and grey with "N/A".  A NaN signal is in the weakest
    class. *)
Theorem colorBySignal_matches_signalBucket (dbm : option spec_float) :
  In (colorBySignal dbm, signalBucket dbm)
     [ ("#2e7d32", "≥ -60 dBm"); ("#f9a825", "-75 to -60 dBm");
       ("#c62828", "< -75 dBm"); ("#9e9e9e", "N/A") ]
  /\ (colorBySignal (Some S754_nan), signalBucket (Some S754_nan))
     = ("#c62828", "< -75 dBm").
Proof.
  split; [|reflexivity]. unfold colorBySignal, signalBucket.
  destruct dbm as [d|]; [|simpl; tauto].
  destruct (b64_le (b64_of_Z (-60)) d); [simpl; tauto|].
  destruct (b64_le (b64_of_Z (-75)) d); simpl; tauto.
Qed.

Lemma b64_le_trans (a b c : spec_float) :
  b64_le a b = true -> b64_le b c = true -> b64_le a c = true.
Proof.
  unfold b64_le, SFleb, SFcompare.
  destruct a as [sa|sa| |sa ma ea], b as [sb|sb| |sb mb eb], c as [sc|sc| |sc mc ec];
    try destruct sa; try destruct sb; try destruct sc;
    try discriminate; try reflexivity;
    change (Pos.compare_cont Eq) with Pos.compare;
    destruct (Z.compare_spec ea eb), (Z.compare_spec eb ec), (Z.compare_spec ea ec);
    try discriminate; try reflexivity; try lia; subst;
    destruct (Pos.compare_spec ma mb), (Pos.compare_spec mb mc), (Pos.compare_spec ma mc);
    simpl; try discriminate; try reflexivity; try lia.
Qed.

(** X14. The colour follows the strength: of two signals [a <= b], if [a]
    is green so is [b], if [a] is amber then [b] is amber or green, and if
    [b] is red so is [a]. *)
Theorem colorBySignal_monotone (a b : spec_float) :
  b64_le a b = true ->
  (colorBySignal (Some a) = "#2e7d32" -> colorBySignal (Some b) = "#2e7d32")
  /\ (colorBySignal (Some a) = "#f9a825" ->
      colorBySignal (Some b) = "#f9a825" \/ colorBySignal (Some b) = "#2e7d32")
  /\ (colorBySignal (Some b) = "#c62828" -> colorBySignal (Some a) = "#c62828").
Proof.
  intros Hab. unfold colorBySignal.
  destruct (b64_le (b64_of_Z (-60)) a) eqn:H60a.
  - rewrite (b64_le_trans _ _ _ H60a Hab). repeat split; try discriminate; auto.
  - destruct (b64_le (b64_of_Z (-75)) a) eqn:H75a.
    + rewrite (b64_le_trans _ _ _ H75a Hab).
      destruct (b64_le (b64_of_Z (-60)) b); repeat split; try discriminate; auto.
    + repeat split; try discriminate; auto.
Qed.

Lemma colorBySignal_monotone_witness :
  colorBySignal (Some (b64_of_Z (-80))) = "#c62828"
  /\ colorBySignal (Some (b64_of_Z (-70))) = "#f9a825"
  /\ (colorBySignal (Some (b64_of_Z (-70))) = "#c62828" ->
      colorBySignal (Some (b64_of_Z (-80))) = "#c62828").
Proof.
  split; [reflexivity|]. split; [reflexivity|].
  apply (colorBySignal_monotone (b64_of_Z (-80)) (b64_of_Z (-70))).
  vm_compute. reflexivity.
Defined.

(** ** The page: the filter *)

(** X15. The slider cannot hide a record without a signal: for a record
    whose signal is [null], or NaN, [passesFilters] gives the same answer
    at every position of the slider. *)
Theorem passesFilters_ignores_threshold_without_signal
    (js_number_string : spec_float -> string) (c : controls) (m : Z) (it : item) :
  it_signal it = None \/ it_signal it = Some S754_nan ->
  passesFilters js_number_string (Controls (typeEls c) m (ssidq c)) it
  = passesFilters js_number_string c it.
Proof.
  intros H. unfold passesFilters, activeTypes, ssidQuery. simpl.
  destruct H as [-> | ->]; simpl; rewrite !andb_false_r; reflexivity.
Qed.

Lemma passesFilters_ignores_threshold_without_signal_witness :
  passesFilters number_blank
    (Controls (typeEls controls_reset) (-20) (ssidq controls_reset))
    (Item [("SSID", JStr "cafe")] None "ap")
  = passesFilters number_blank controls_reset (Item [("SSID", JStr "cafe")] None "ap").
Proof.
  apply (passesFilters_ignores_threshold_without_signal number_blank controls_reset (-20)).
  left. reflexivity.
Defined.

Lemma active_types_reset (t : string) :
  t ∈ activeTypes controls_reset <-> In t ["ap"; "client"; "bridge"; "unknown"].
Proof.
  unfold activeTypes. rewrite elem_of_list_to_set, list_elem_of_In.
  reflexivity.
Qed.

(** X16. After a reset (all four boxes checked, slider at -120, empty
    query) a record of one of the four categories is shown unless its
    signal is below -120 dBm: the default threshold still filters. *)
Theorem passesFilters_after_reset (js_number_string : spec_float -> string)
    (it : item) :
  In (it_type it) ["ap"; "client"; "bridge"; "unknown"] ->
  passesFilters js_number_string controls_reset it
  = match it_signal it with
    | Some s => negb (b64_lt s (b64_of_Z (-120)))
    | None => true
    end.
Proof.
  intros Ht. unfold passesFilters.
  rewrite (bool_decide_eq_true_2 (it_type it ∈ activeTypes controls_reset))
    by (now apply active_types_reset).
  change (ssidQuery controls_reset) with "".
  change (is_finite (b64_of_Z (minsig controls_reset))) with true.
  change (minsig controls_reset) with (-120). simpl.
  destruct (it_signal it) as [s|]; [|reflexivity].
  destruct (b64_lt s (b64_of_Z (-120))); reflexivity.
Qed.

Lemma passesFilters_after_reset_witness :
  passesFilters number_blank controls_reset
    (Item [] (Some (b64_of_Z (-121))) "ap") = false.
Proof.
  rewrite (passesFilters_after_reset number_blank) by (simpl; tauto).
  vm_compute. reflexivity.
Defined.

Lemma js_space_upper c : js_isspace (upper_char c) = js_isspace c.
Proof. by_cases_on_char c. Qed.

Lemma lower_upper_char c : lower_char (upper_char c) = lower_char c.
Proof. by_cases_on_char c. Qed.

Lemma lower_upper (s : string) : lower (upper s) = lower s.
Proof.
  unfold lower, upper. induction s as [|c r IH]; simpl; [reflexivity|].
  now rewrite IH, lower_upper_char.
Qed.

Lemma strip_spaces_around sp (w1 w2 s : string) :
  sall sp w1 = true -> sall sp w2 = true ->
  strip sp (w1 ++ s ++ w2) = strip sp s.
Proof.
  intros H1 H2. rewrite <- append_assoc, (strip_app_spaces sp _ w2 H2).
  unfold strip. now rewrite (lstrip_spaces_app sp w1 s H1).
Qed.

(** X17. The query is matched without regard to its letter case and to
    white space around it: typing the query in upper case, or with spaces
    before and after, shows the same records. *)
Theorem passesFilters_query_normalized (js_number_string : spec_float -> string)
    (boxes : list (string * bool)) (m : Z) (q w1 w2 : string) (it : item) :
  sall js_isspace w1 = true -> sall js_isspace w2 = true ->
  passesFilters js_number_string (Controls boxes m (w1 ++ upper q ++ w2)) it
  = passesFilters js_number_string (Controls boxes m q) it.
Proof.
  intros H1 H2.
  assert (Hq : lower (strip js_isspace (w1 ++ upper q ++ w2))
               = lower (strip js_isspace q)).
  { rewrite (strip_spaces_around js_isspace w1 w2 (upper q) H1 H2).
    unfold upper. rewrite (strip_smap js_isspace upper_char q js_space_upper).
    apply lower_upper. }
  unfold passesFilters, ssidQuery, activeTypes. simpl. rewrite Hq. reflexivity.
Qed.

Lemma passesFilters_query_normalized_witness :
  passesFilters number_blank (Controls (typeEls controls_reset) (-120) "  EDU ")
    record_minus65
  = passesFilters number_blank (Controls (typeEls controls_reset) (-120) "edu")
      record_minus65.
Proof.
  apply (passesFilters_query_normalized number_blank _ (-120) "edu" "  " " ");
    reflexivity.
Defined.

(** X18. The number shown by [refresh] is the number of records that pass
    the filter, so it is at most the number of records. *)
Theorem refresh_shown_counts (js_number_string : spec_float -> string)
    (c : controls) (items : list item) :
  refresh_shown js_number_string c items 0
  = length (List.filter (passesFilters js_number_string c) items)
  /\ (refresh_shown js_number_string c items 0 <= length items)%nat.
Proof.
  assert (H : forall n,
             refresh_shown js_number_string c items n
             = (n + length (List.filter (passesFilters js_number_string c) items))%nat).
  { induction items as [|it rest IH]; intros n; simpl; [lia|].
    rewrite IH. destruct (passesFilters js_number_string c it); simpl; lia. }
  rewrite H. split; [reflexivity|]. simpl. apply List.filter_length_le.
Qed.

(** ** The page: the signal extractor *)

Lemma dict_get_In {V : Type} (k : string) (v : V) (d : list (string * V)) :
  dict_get k d = Some v -> In (k, v) d.
Proof.
  induction d as [|[k' v'] r IH]; simpl; [discriminate|].
  destruct (String.eqb_spec k k') as [<-|_].
  - intros [= <-]. now left.
  - intros H. right. auto.
Qed.

Lemma insert_by_index_In i e j e' l :
  In (j, e') (insert_by_index i e l) -> (j, e') = (i, e) \/ In (j, e') l.
Proof.
  induction l as [|[j0 e0] r IH]; simpl.
  - intros [H|[]]. left. now symmetry.
  - destruct (Z.ltb i j0); simpl.
    + intros [H|H]; [left; now symmetry|right; exact H].
    + intros [H|H]; [right; now left|].
      destruct (IH H) as [H'|H']; [now left|right; now right].
Qed.

Lemma indexed_entries_In (o : jsobj) i e : In (i, e) (indexed_entries o) -> In e o.
Proof.
  induction o as [|e0 r IH]; simpl; [tauto|].
  destruct (array_index (fst e0)) as [j|].
  - intros H. apply insert_by_index_In in H. destruct H as [[= _ ->]|H]; auto.
  - auto.
Qed.

Lemma named_entries_In (o : jsobj) e : In e (named_entries o) -> In e o.
Proof.
  induction o as [|e0 r IH]; simpl; [tauto|].
  destruct (array_index (fst e0)); simpl; intuition.
Qed.

(** [Object.entries] lists properties of the object only. *)
Lemma object_entries_In (o : jsobj) e : In e (object_entries o) -> In e o.
Proof.
  unfold object_entries. rewrite in_app_iff, in_map_iff.
  intros [([i e'] & <- & H)|H].
  - exact (indexed_entries_In o i e' H).
  - exact (named_entries_In o e H).
Qed.

Section SignalOnPage.

Variable js_number_string : spec_float -> string.

Lemma coerceFloat_finite (v : jsval) (x : spec_float) :
  coerceFloat js_number_string v = Some x -> is_finite x = true \/ v = JNum x.
Proof.
  unfold coerceFloat.
  destruct v as [| |b|f|s|l|o]; try discriminate;
    try (destruct (is_finite _) eqn:H; [intros [= <-]; left; exact H|discriminate]).
  intros [= <-]. now right.
Qed.

Lemma scan_ranked_keys_finite (keys : list string) (props : jsobj) (x : spec_float) :
  scan_ranked_keys js_number_string keys props = Some x ->
  is_finite x = true \/ exists k, In (k, JNum x) props.
Proof.
  induction keys as [|k rest IH]; simpl; [discriminate|].
  unfold dict_has, js_get. destruct (dict_get k props) as [v|] eqn:Hk; [|exact IH].
  simpl. destruct (coerceFloat js_number_string v) as [y|] eqn:Hv; [|exact IH].
  intros [= <-]. destruct (coerceFloat_finite v y Hv) as [H| ->]; [now left|].
  right. exists k. exact (dict_get_In k _ props Hk).
Qed.

Lemma scan_entries_finite (entries : jsobj) (x : spec_float) :
  scan_entries js_number_string entries = Some x ->
  is_finite x = true \/ exists kk, In (kk, JNum x) entries.
Proof.
  induction entries as [|[kk vv] rest IH]; simpl; [discriminate|].
  assert (Hrest : scan_entries js_number_string rest = Some x ->
                  is_finite x = true \/ exists kk', In (kk', JNum x) ((kk, vv) :: rest)).
  { intros H. destruct (IH H) as [Hf|[kk' Hin]]; [now left|].
    right. exists kk'. now right. }
  destruct (names_signal kk); [|exact Hrest].
  destruct (coerceFloat js_number_string vv) as [y|] eqn:Hv; [|exact Hrest].
  intros [= <-]. destruct (coerceFloat_finite vv y Hv) as [H| ->]; [now left|].
  right. exists kk. now left.
Qed.

Lemma scan_objects_finite (entries : jsobj) (x : spec_float) :
  scan_objects js_number_string entries = Some x ->
  is_finite x = true
  \/ exists k v kk, In (k, v) entries /\ In (kk, JNum x) (value_entries v).
Proof.
  induction entries as [|[k v] rest IH]; simpl; [discriminate|].
  assert (Hrest : scan_objects js_number_string rest = Some x ->
                  is_finite x = true
                  \/ exists k' v' kk, In (k', v') ((k, v) :: rest)
                                      /\ In (kk, JNum x) (value_entries v')).
  { intros H. destruct (IH H) as [Hf|(k' & v' & kk & Hin & Hx)]; [now left|].
    right. exists k', v', kk. split; [now right|exact Hx]. }
  destruct (truthy_object v); [|exact Hrest].
  destruct (scan_entries js_number_string (value_entries v)) as [y|] eqn:Hv;
    [|exact Hrest].
  intros [= <-]. destruct (scan_entries_finite _ y Hv) as [H|[kk Hin]]; [now left|].
  right. exists k, v, kk. split; [now left|exact Hin].
Qed.

End SignalOnPage.

(** X19. The page's extractor keeps the promise of a finite signal for
    everything it parses from text: a result of [extractSignal] is a finite
    number, unless the properties hold that very number as a number, at the
    top or one level down (a number is passed through untested). *)
Theorem extractSignal_finite_or_stored (js_number_string : spec_float -> string)
    (props : jsobj) (x : spec_float) :
  extractSignal js_number_string props = Some x ->
  is_finite x = true \/ stored_number props x.
Proof.
  unfold extractSignal, stored_number.
  destruct (scan_ranked_keys js_number_string SIGNAL_KEYS props) as [y|] eqn:Hflat.
  - intros [= <-]. destruct (scan_ranked_keys_finite _ _ _ _ Hflat) as [H|H]; auto.
  - intros H. destruct (scan_objects_finite _ _ _ H) as [Hf|(k & v & kk & Hin & Hx)];
      [now left|].
    right. right. exists k, v, kk. split; [|exact Hx].
    now apply object_entries_In.
Qed.

Lemma extractSignal_finite_or_stored_witness :
  extractSignal number_blank [("signal", JStr "nan"); ("radio", JObj [("dbm", JStr "-40")])]
  = Some (b64_of_Z (-40))
  /\ (is_finite (b64_of_Z (-40)) = true
      \/ stored_number [("signal", JStr "nan"); ("radio", JObj [("dbm", JStr "-40")])]
           (b64_of_Z (-40))).
Proof.
  assert (H : extractSignal number_blank
                [("signal", JStr "nan"); ("radio", JObj [("dbm", JStr "-40")])]
              = Some (b64_of_Z (-40))) by (vm_compute; reflexivity).
  split; [exact H|].
  exact (extractSignal_finite_or_stored number_blank _ _ H).
Defined.

(** ** The page: classification without a type field *)

Lemma no_type_field_texts (js_number_string : spec_float -> string) (props : jsobj) :
  no_type_field props ->
  map (fun k => js_to_string js_number_string (js_or (js_get props k) (JStr "")))
      TYPE_KEYS
  = map (fun _ => "") TYPE_KEYS.
Proof.
  intros H. apply map_ext_in. intros k Hk.
  unfold js_or. rewrite (H k Hk). reflexivity.
Qed.

Lemma inferType_no_type_field (js_number_string : spec_float -> string)
    (props : jsobj) :
  no_type_field props ->
  inferType js_number_string props
  = if js_truthy (js_or (js_or (js_get props "SSID") (js_get props "ssid"))
                        (js_get props "dot11.device.ssid"))
       && js_truthy (js_or (js_or (js_get props "Channel") (js_get props "channel"))
                           (js_get props "kismet.device.base.channel"))
    then "ap"
    else
      let enc :=
        lower (js_to_string js_number_string
                 (js_or (js_or (js_get props "Encryption") (js_get props "encryption"))
                        (JStr ""))) in
      if negb (String.eqb enc "") && negb (String.eqb enc "unknown")
         && negb (String.eqb enc "open") then "ap"
      else "unknown".
Proof.
  intros H. unfold inferType.
  rewrite (no_type_field_texts js_number_string props H).
  assert (HT : js_truthy (js_get props "Type") = false) by (apply H; simpl; tauto).
  assert (Ht : js_truthy (js_get props "type") = false) by (apply H; simpl; tauto).
  assert (He : js_or (js_or (js_get props "Type") (js_get props "type")) (JStr "")
               = JStr "").
  { unfold js_or. rewrite HT, Ht. reflexivity. }
  rewrite He. reflexivity.
Qed.

(** X20. Without a truthy value under any type-ish key the page never says
    "client" or "bridge": the type is "ap" or "unknown", and it is "ap"
    exactly when an SSID and a channel are both there, or the encryption
    reads something other than nothing, "unknown" and "open". *)
Theorem inferType_without_type_field (js_number_string : spec_float -> string)
    (props : jsobj) :
  no_type_field props ->
  let has_ssid :=
    js_truthy (js_or (js_or (js_get props "SSID") (js_get props "ssid"))
                     (js_get props "dot11.device.ssid")) in
  let has_chan :=
    js_truthy (js_or (js_or (js_get props "Channel") (js_get props "channel"))
                     (js_get props "kismet.device.base.channel")) in
  let enc :=
    lower (js_to_string js_number_string
             (js_or (js_or (js_get props "Encryption") (js_get props "encryption"))
                    (JStr ""))) in
  (inferType js_number_string props = "ap"
   \/ inferType js_number_string props = "unknown")
  /\ (inferType js_number_string props = "ap"
      <-> (has_ssid = true /\ has_chan = true)
          \/ (enc <> "" /\ enc <> "unknown" /\ enc <> "open")).
Proof.
  intros H. cbv zeta. rewrite (inferType_no_type_field js_number_string props H).
  cbv zeta.
  destruct (js_truthy (js_or (js_or (js_get props "SSID") _) _));
    destruct (js_truthy (js_or (js_or (js_get props "Channel") _) _)); simpl;
    try (split; [now left|]; split; [intros _; left; now split|reflexivity]);
    (destruct (String.eqb_spec
                 (lower (js_to_string js_number_string
                           (js_or (js_or (js_get props "Encryption")
                                         (js_get props "encryption")) (JStr ""))))
                 "") as [E1|E1]; simpl;
     [split; [now right|]; split; [discriminate|];
      intros [[? ?]|[? _]]; [discriminate|contradiction]|]);
    (destruct (String.eqb_spec
                 (lower (js_to_string js_number_string
                           (js_or (js_or (js_get props "Encryption")
                                         (js_get props "encryption")) (JStr ""))))
                 "unknown") as [E2|E2]; simpl;
     [split; [now right|]; split; [discriminate|];
      intros [[? ?]|(_ & ? & _)]; [discriminate|contradiction]|]);
    (destruct (String.eqb_spec
                 (lower (js_to_string js_number_string
                           (js_or (js_or (js_get props "Encryption")
                                         (js_get props "encryption")) (JStr ""))))
                 "open") as [E3|E3]; simpl;
     [split; [now right|]; split; [discriminate|];
      intros [[? ?]|(_ & _ & ?)]; [discriminate|contradiction]|]);
    (split; [now left|]; split; [intros _; right; now repeat split|reflexivity]).
Qed.

Lemma inferType_without_type_field_witness :
  inferType number_blank [("SSID", JStr "cafe"); ("Encryption", JStr "WPA2")] = "ap"
  \/ inferType number_blank [("SSID", JStr "cafe"); ("Encryption", JStr "WPA2")]
     = "unknown".
Proof.
  refine (proj1 (inferType_without_type_field number_blank
                   [("SSID", JStr "cafe"); ("Encryption", JStr "WPA2")] _)).
  intros k Hk. simpl in Hk.
  repeat (destruct Hk as [<-|Hk]; [reflexivity|]). destruct Hk.
Defined.

(** ** From the ingest scripts to the page *)

Lemma dict_get_page_props (k : string) (properties : pydict) :
  dict_get k (page_props properties) = option_map js_of_py (dict_get k properties).
Proof.
  induction properties as [|[k' v] r IH]; simpl; [reflexivity|].
  destruct (String.eqb k k'); [reflexivity|exact IH].
Qed.

Lemma ingest_properties_get (k : string) (properties : pydict) :
  ingest_properties properties -> ~ In k INGEST_KEYS -> dict_get k properties = None.
Proof.
  intros H Hk. induction H as [|[k' v] r [Hin _] _ IH]; simpl; [reflexivity|].
  destruct (String.eqb_spec k k') as [->|_]; [contradiction|exact IH].
Qed.

Lemma ingest_properties_scalar (k : string) (v : pyval) (properties : pydict) :
  ingest_properties properties -> In (k, v) properties -> scalar v = true.
Proof.
  intros H Hin. unfold ingest_properties in H. rewrite Forall_forall in H.
  apply list_elem_of_In in Hin. exact (proj2 (H (k, v) Hin)).
Qed.

Lemma signal_key_not_written (k : string) : In k SIGNAL_KEYS -> ~ In k INGEST_KEYS.
Proof.
  simpl. intros H.
  repeat (destruct H as [<-|H]; [intros Hk; repeat (destruct Hk as [Hk|Hk]; [discriminate|]);
                                 exact Hk|]).
  destruct H.
Qed.

Lemma type_key_not_written (k : string) : In k TYPE_KEYS -> ~ In k INGEST_KEYS.
Proof.
  simpl. intros H.
  repeat (destruct H as [<-|H]; [intros Hk; repeat (destruct Hk as [Hk|Hk]; [discriminate|]);
                                 exact Hk|]).
  destruct H.
Qed.

Section IngestOnPage.

Variable py_repr : pyval -> string.
Variable js_number_string : spec_float -> string.

Lemma scan_signal_keys_absent (keys : list string) (props : pydict) :
  (forall k, In k keys -> dict_get k props = None) ->
  scan_signal_keys py_repr keys props = Ok None.
Proof.
  induction keys as [|k rest IH]; simpl; [reflexivity|].
  intros H. unfold dict_has. rewrite (H k (or_introl eq_refl)). simpl.
  apply IH. intros k' Hk'. apply H. now right.
Qed.

Lemma scan_nested_scalars (props : pydict) :
  Forall (fun kv => scalar (snd kv) = true) props ->
  scan_nested py_repr props = Ok None.
Proof.
  induction 1 as [|[k v] r Hv _ IH]; simpl; [reflexivity|].
  destruct v; try discriminate; exact IH.
Qed.

Lemma scan_ranked_keys_absent (keys : list string) (props : jsobj) :
  (forall k, In k keys -> dict_get k props = None) ->
  scan_ranked_keys js_number_string keys props = None.
Proof.
  induction keys as [|k rest IH]; simpl; [reflexivity|].
  intros H. unfold dict_has. rewrite (H k (or_introl eq_refl)). simpl.
  apply IH. intros k' Hk'. apply H. now right.
Qed.

Lemma scan_objects_scalars (entries : jsobj) :
  Forall (fun e => truthy_object (snd e) = false) entries ->
  scan_objects js_number_string entries = None.
Proof.
  induction 1 as [|[k v] r Hv _ IH]; simpl; [reflexivity|].
  simpl in Hv. rewrite Hv. exact IH.
Qed.

Lemma scalar_on_page (v : pyval) : scalar v = true -> truthy_object (js_of_py v) = false.
Proof. destruct v; simpl; congruence. Qed.

(** What the generator and the page make of a property dict of the shape
    the ingest scripts write. *)
Lemma ingest_properties_shown (properties : pydict) :
  ingest_properties properties ->
  shown_without_signal py_repr js_number_string properties.
Proof.
  intros H. unfold shown_without_signal.
  assert (Hsig : forall k, In k SIGNAL_KEYS -> dict_get k properties = None).
  { intros k Hk. apply ingest_properties_get; [exact H|].
    now apply signal_key_not_written. }
  split; [|split].
  - unfold extract_signal_dbm. rewrite (scan_signal_keys_absent _ _ Hsig). simpl.
    apply scan_nested_scalars. unfold ingest_properties in H.
    eapply Forall_impl; [exact H|]. intros kv [_ Hs]. exact Hs.
  - unfold extractSignal. rewrite scan_ranked_keys_absent.
    + apply scan_objects_scalars. rewrite Forall_forall. intros [k v] Hin.
      apply list_elem_of_In, object_entries_In in Hin. unfold page_props in Hin.
      rewrite in_map_iff in Hin. destruct Hin as ([k' v'] & [= <- <-] & Hin).
      simpl. apply scalar_on_page. exact (ingest_properties_scalar k' v' _ H Hin).
    + intros k Hk. rewrite dict_get_page_props, (Hsig k Hk). reflexivity.
  - rewrite inferType_no_type_field.
    + cbv zeta.
      destruct (_ && _); [now left|].
      destruct (_ && _); [now left|now right].
    + intros k Hk. unfold js_get. rewrite dict_get_page_props.
      rewrite (ingest_properties_get k properties H (type_key_not_written k Hk)).
      reflexivity.
Qed.

End IngestOnPage.

Lemma py_cell_scalar (cell : option string) : scalar (py_cell cell) = true.
Proof. now destruct cell. Qed.

Lemma py_number_scalar (x : option spec_float) : scalar (py_number x) = true.
Proof. now destruct x. Qed.

(** X21. The signal that [csv_to_geojson] writes is never read again: it
    is stored under the name Signal, which is none of the names the map
    generator and its page look for, so for every feature written for a
    row both extractors find no signal, whatever the RSSI cell held; and
    as no type is written either, the page shows the feature as "ap" or
    "unknown". *)
Theorem csv_feature_shown_without_signal (py_repr : pyval -> string)
    (js_number_string : spec_float -> string) (row : csv_row) (f : pyval) :
  csv_feature row = Some f ->
  exists lon lat properties,
    f = point_feature lon lat properties
    /\ dict_get "Signal" properties = Some (py_number (to_float (row_get row "RSSI")))
    /\ shown_without_signal py_repr js_number_string properties.
Proof.
  intros H.
  destruct (csv_feature_cases row) as [Hno|(s & t & lat & lon & Hrest)].
  - rewrite (csv_feature_no_position row Hno) in H. discriminate.
  - destruct Hrest as (_ & _ & _ & _ & _ & Hsome).
    rewrite Hsome in H. injection H as <-.
    eexists lon, lat, _. split; [reflexivity|]. split; [reflexivity|].
    apply ingest_properties_shown.
    unfold ingest_properties.
    repeat (constructor; [split; [simpl; tauto|];
                          apply py_cell_scalar || apply py_number_scalar|]).
    constructor.
Qed.

Lemma csv_feature_shown_without_signal_witness :
  exists lon lat properties,
    csv_feature scenario1_row = Some (point_feature lon lat properties)
    /\ dict_get "Signal" properties
       = Some (py_number (to_float (row_get scenario1_row "RSSI")))
    /\ shown_without_signal repr_blank number_blank properties.
Proof.
  destruct (csv_feature scenario1_row) as [f|] eqn:H; [|vm_compute in H; discriminate].
  destruct (csv_feature_shown_without_signal repr_blank number_blank scenario1_row f H)
    as (lon & lat & properties & -> & Hsig & Hshown).
  exists lon, lat, properties. repeat split; assumption || apply Hshown.
Defined.

(** What the loop body of [parse_netxml] leaves behind for a record. *)
Lemma parse_network_cases (net : element) (rows rows' : list (list pyval))
    (features features' : list pyval) :
  parse_network net (rows, features) = Ok (rows', features') ->
  exists stext etext,
    let ssid := or_else (strip py_isspace stext) "hidden" in
    let bssid := or_else (default "" (dict_get "BSSID" (el_attrib net))) "unknown" in
    let chan := match find ["channel"] net with
                | Some el => el_text el | None => Some "" end in
    let rssi := match find ["snr-info"; "last_signal_dbm"] net with
                | Some el => el_text el | None => Some "" end in
    let lat := match find ["gps-info"; "avg-lat"] net with
               | Some el => el_text el | None => None end in
    let lon := match find ["gps-info"; "avg-lon"] net with
               | Some el => el_text el | None => None end in
    rows' = (rows ++ [[PStr ssid; PStr bssid; PStr (upper etext); py_cell chan;
                       py_cell lat; py_cell lon; py_cell rssi]])%list
    /\ (features' = features
        \/ exists flon flat,
             features'
             = (features ++
                [point_feature flon flat
                   [ ("SSID", PStr ssid); ("BSSID", PStr bssid);
                     ("Encryption", PStr (upper etext)); ("Channel", py_cell chan);
                     ("Signal", py_cell rssi) ]])%list).
Proof.
  unfold parse_network.
  destruct (match find ["SSID"; "essid"] net with
            | Some el => el_text el | None => Some "hidden" end) as [stext|];
    [|discriminate].
  destruct (match find ["SSID"; "encryption"] net with
            | Some el => el_text el | None => Some "unknown" end) as [etext|];
    [|discriminate].
  cbn [on_text mbind res_bind].
  intros H. exists stext, etext. cbv zeta.
  destruct (cell_truthy _ && cell_truthy _);
    [destruct (py_float _); [destruct (py_float _)|]|];
    injection H as <- <-;
    (split; [reflexivity|]);
    solve [left; reflexivity | right; do 2 eexists; reflexivity].
Qed.

(** X22. The same holds for [parse_netxml]: the feature it appends for a
    record has exactly the properties SSID, BSSID, Encryption, Channel and
    Signal, with the text of [snr-info/last_signal_dbm] (the empty text
    when the element is absent, [None] when it is empty) stored under the
    name Signal and no type; so the generator and the page find no signal
    in it, and the page shows it as "ap" or "unknown". *)
Theorem parse_network_shown_without_signal (py_repr : pyval -> string)
    (js_number_string : spec_float -> string) (net : element)
    (rows rows' : list (list pyval)) (features features' : list pyval) :
  parse_network net (rows, features) = Ok (rows', features') ->
  features' = features
  \/ exists lon lat properties,
       features' = (features ++ [point_feature lon lat properties])%list
       /\ map fst properties = ["SSID"; "BSSID"; "Encryption"; "Channel"; "Signal"]
       /\ dict_get "Signal" properties
          = Some (py_cell (match find ["snr-info"; "last_signal_dbm"] net with
                           | Some el => el_text el
                           | None => Some ""
                           end))
       /\ shown_without_signal py_repr js_number_string properties.
Proof.
  intros H.
  destruct (parse_network_cases net rows rows' features features' H)
    as (stext & etext & _ & [Hsame|(flon & flat & Hnew)]);
    [now left|right].
  eexists flon, flat, _. split; [exact Hnew|].
  split; [reflexivity|]. split; [reflexivity|].
  apply ingest_properties_shown. unfold ingest_properties.
  repeat (constructor; [split; [simpl; tauto|]; reflexivity || apply py_cell_scalar|]).
  constructor.
Qed.

(** A located record whose last signal reads "-61": the text is stored
    under Signal and found by neither extractor. *)
Lemma parse_network_shown_without_signal_witness :
  exists rows' lon lat properties,
    parse_network network_with_signal ([], [])
    = Ok (rows', [point_feature lon lat properties])
    /\ dict_get "Signal" properties = Some (PStr "-61")
    /\ shown_without_signal repr_blank number_blank properties.
Proof.
  destruct (parse_network network_with_signal ([], [])) as [[rows' features']|e] eqn:H;
    [|vm_compute in H; discriminate].
  destruct (parse_network_shown_without_signal repr_blank number_blank
              network_with_signal [] rows' [] features' H)
    as [Hnone|(lon & lat & properties & -> & _ & Hsig & Hshown)].
  - rewrite Hnone in H. vm_compute in H. discriminate.
  - exists rows', lon, lat, properties. repeat split; try apply Hshown.
    exact Hsig.
Defined.

(** ** The page: the patterns of the classifier *)

Lemma starts_with_split (p s r : string) : starts_with p s = Some r -> s = p ++ r.
Proof.
  revert s. induction p as [|a p IH]; intros s; simpl.
  - intros [= ->]. reflexivity.
  - destruct s as [|b s]; [discriminate|].
    destruct (Ascii.eqb_spec a b) as [->|_]; [|discriminate].
    intros H. push_append. now rewrite (IH s H).
Qed.

Lemma is_prefix_contains (p s : string) : is_prefix p s = true -> contains p s = true.
Proof. intros H. destruct s; simpl; rewrite H; reflexivity. Qed.

(** A text that begins with a pattern holding a backspace holds one. *)
Lemma prefix_with_backspace (a b s : string) :
  is_prefix (a ++ backspace ++ b) s = true -> contains backspace s = true.
Proof.
  unfold is_prefix. destruct (starts_with (a ++ backspace ++ b) s) as [r|] eqn:H;
    [|discriminate].
  intros _. rewrite (starts_with_split _ _ _ H).
  replace ((a ++ backspace ++ b) ++ r) with (a ++ (backspace ++ (b ++ r)))
    by (now rewrite !append_assoc).
  apply contains_app_r, contains_app_l. reflexivity.
Qed.

Lemma contains_tail (u : string) c (s : string) :
  contains u (String c s) = false -> contains u s = false.
Proof. simpl. rewrite orb_false_iff. tauto. Qed.

(** Without a backspace in the text, the patterns that hold one fail. *)
Lemma regex_test_without_backspace (s : string) :
  contains backspace s = false ->
  regex_test re_bridge s = false
  /\ regex_test re_wifi s = false
  /\ regex_test re_client s = contains "station" s.
Proof.
  assert (Hfail : forall a b t, contains backspace t = false ->
                                is_prefix (a ++ backspace ++ b) t = false).
  { intros a b t Ht. destruct (is_prefix (a ++ backspace ++ b) t) eqn:H; [|reflexivity].
    apply prefix_with_backspace in H. congruence. }
  induction s as [|c s IH]; intros Hs.
  - repeat split.
  - destruct (IH (contains_tail _ _ _ Hs)) as (Hb & Hw & Hc).
    assert (H1 : is_prefix (backspace ++ "bridge") (String c s) = false)
      by exact (Hfail "" "bridge" _ Hs).
    assert (H2 : is_prefix ("bridged" ++ backspace) (String c s) = false)
      by exact (Hfail "bridged" "" _ Hs).
    assert (H3 : is_prefix (backspace ++ "wifi" ++ backspace) (String c s) = false)
      by exact (Hfail "" ("wifi" ++ backspace) _ Hs).
    assert (H4 : is_prefix (backspace ++ "client") (String c s) = false)
      by exact (Hfail "" "client" _ Hs).
    assert (H5 : is_prefix (backspace ++ "sta" ++ backspace) (String c s) = false)
      by exact (Hfail "" ("sta" ++ backspace) _ Hs).
    cbn [regex_test]. rewrite Hb, Hw, Hc. unfold re_bridge, re_wifi, re_client.
    rewrite H1, H2, H3, H4, H5. repeat split. simpl. now rewrite orb_false_r.
Qed.

(** X23. The three patterns of the page's classifier reach the page with
    a backspace character where the template shows a word boundary.  So
    for properties whose explicit field names no category and whose
    type-ish fields hold no backspace, [inferType] never answers "bridge",
    and it answers "client" exactly when the type-ish fields contain
    "station": a type of "WIFI" or "bridged" decides nothing. *)
Theorem inferType_patterns_need_backspace (js_number_string : spec_float -> string)
    (props : jsobj) :
  contains backspace (raw_type_text js_number_string props) = false ->
  explicit_category (explicit_type_text js_number_string props) = None ->
  inferType js_number_string props <> "bridge"
  /\ (inferType js_number_string props = "client"
      <-> contains "station" (raw_type_text js_number_string props) = true).
Proof.
  intros Hraw Hexp. unfold inferType.
  fold (raw_type_text js_number_string props).
  fold (explicit_type_text js_number_string props).
  destruct (regex_test_without_backspace _ Hraw) as (-> & -> & ->).
  unfold explicit_category, str_in in Hexp. simpl in Hexp.
  rewrite orb_false_r in Hexp.
  destruct (String.eqb (explicit_type_text js_number_string props) "client");
    [discriminate|].
  destruct (String.eqb (explicit_type_text js_number_string props) "ap" ||
            String.eqb (explicit_type_text js_number_string props) "access point");
    [discriminate|].
  destruct (String.eqb (explicit_type_text js_number_string props) "bridge");
    [discriminate|].
  destruct (contains "station" (raw_type_text js_number_string props)).
  - split; [discriminate|]. split; reflexivity.
  - destruct (_ && _); [split; [discriminate|]; split; discriminate|].
    destruct (_ && _); split; try discriminate; split; discriminate.
Qed.

Lemma inferType_patterns_need_backspace_witness :
  inferType number_blank props_wifi_bridged = "unknown"
  /\ inferType number_blank props_wifi_bridged <> "bridge".
Proof.
  split; [vm_compute; reflexivity|].
  apply (inferType_patterns_need_backspace number_blank props_wifi_bridged);
    vm_compute; reflexivity.
Defined.
